(** * django-hashid-field: the descriptor and the field types

    A shallow embedding of [hashid_field/descriptor.py] and
    [hashid_field/field.py].  Python objects are records, attribute
    dictionaries are finite maps, exceptions are an error monad, and the
    host ORM (Django) and the [hashid] module are interfaces the development
    is parametrised over. *)

From Stdlib Require Import ZArith Ascii String.
From stdpp Require Import base option list strings pretty gmap.

Open Scope string_scope.
Open Scope Z_scope.

(** ** Python values and exceptions *)

(** The four per-field encoding parameters that the descriptor and the field
    both carry ([salt], [min_length], [alphabet], [prefix]). *)
Record Config := mkConfig {
  cfg_salt : option string;
  cfg_min_length : Z;
  cfg_alphabet : string;
  cfg_prefix : option string;
}.

(** Modelled from the spec: the [Hashid] class ([hashid.py]), whose instances
    carry the underlying integer id together with the salt, minimum length,
    alphabet and prefix they were built with. *)
Record Hashid := mkHashid {
  hashid_id : Z;
  hashid_cfg : Config;
}.

Inductive PyValue :=
  | VNone
  | VBool (b : bool)
  | VInt (n : Z)
  | VStr (s : string)
  | VHashid (h : Hashid).

#[global] Instance Config_eq_dec : EqDecision Config.
Proof. solve_decision. Defined.
#[global] Instance Hashid_eq_dec : EqDecision Hashid.
Proof. solve_decision. Defined.
#[global] Instance value_eq_dec : EqDecision PyValue.
Proof. solve_decision. Defined.

Inductive exn :=
  | ValueError (msg : string) (arg : PyValue)
  | TypeError (msg : string)
  | AttributeError (attr : string)
  | ValidationError (msg : string) (code : string) (params : PyValue)
  | OtherError (msg : string).

Inductive result (A : Type) :=
  | Ok (a : A)
  | Raise (e : exn).
Arguments Ok {A} a.
Arguments Raise {A} e.

#[global] Instance result_ret : MRet result := fun A a => Ok a.
#[global] Instance result_bind : MBind result := fun A B f r =>
  match r with
  | Ok a => f a
  | Raise e => Raise e
  end.

Definition raises {A} (r : result A) : Prop :=
  match r with Ok _ => False | Raise _ => True end.

Definition is_ValueError (e : exn) : bool :=
  match e with ValueError _ _ => true | _ => false end.

(** [isinstance(value, Hashid)] and [value is None]. *)
Definition isinstance_Hashid (v : PyValue) : bool :=
  match v with VHashid _ => true | _ => false end.

Definition is_None (v : PyValue) : bool :=
  match v with VNone => true | _ => false end.

(** ** The [hashid] module

    [descriptor.py] and [field.py] import [Hashid] from [.hashid], which is
    not part of the verified sources.  What they use of it is its
    constructor, which either returns an instance or raises, and
    (through [value == '']) its comparison with a string. *)
Class HashidModule := {
  (** [Hashid(value, salt=.., min_length=.., alphabet=.., prefix=..)] *)
  Hashid_new : PyValue -> Config -> result Hashid;
  (** [str(h)]: the prefix followed by the encoded id. *)
  Hashid_str : Hashid -> string;
  (** Decoding a value as a hashid string under a configuration. *)
  Hashid_decode : Config -> PyValue -> option Z;
  (** The encoder never yields the empty string. *)
  Hashid_str_nonempty : forall h, Hashid_str h <> "";
  (** The module does not know the ORM: its constructor fails with the
      built-in exceptions, never with a validation error. *)
  Hashid_new_not_validation :
    forall v c msg code params, Hashid_new v c <> Raise (ValidationError msg code params);
}.

(** Modelled from the spec: [Hashid.__eq__] against a string compares the
    string form of the instance. *)
Definition Hashid_eq_str `{HashidModule} (h : Hashid) (s : string) : bool :=
  bool_decide (Hashid_str h = s).

(** [value == ''] *)
Definition eq_empty_str `{HashidModule} (v : PyValue) : bool :=
  match v with
  | VStr s => bool_decide (s = "")
  | VHashid h => Hashid_eq_str h ""
  | _ => false
  end.

(** ** Classes, method resolution order and [super] *)

Inductive PyClass :=
  | object_
  | RegisterLookupMixin
  | Field_
  | IntegerField
  | AutoField
  | HashidFieldMixin
  | HashidField
  | HashidAutoField
  | PrimaryKeyHashidProxyField.

#[global] Instance PyClass_eq_dec : EqDecision PyClass.
Proof. solve_decision. Defined.

(** The base classes as written in the [class] statements; those of the
    host's classes are the host's. *)
Definition bases (c : PyClass) : list PyClass :=
  match c with
  | object_ => []
  | RegisterLookupMixin => [object_]
  | Field_ => [RegisterLookupMixin]
  | IntegerField => [Field_]
  | AutoField => [Field_]
  | HashidFieldMixin => [object_]
  | HashidField => [HashidFieldMixin; IntegerField]
  | HashidAutoField => [HashidFieldMixin; AutoField]
  | PrimaryKeyHashidProxyField => [HashidFieldMixin; IntegerField]
  end.

(** C3 linearisation, as Python computes [__mro__]. *)
Definition in_tail (c : PyClass) (s : list PyClass) : bool :=
  bool_decide (c ∈ tail s).

Definition good_head (seqs : list (list PyClass)) (c : PyClass) : bool :=
  forallb (fun s => negb (in_tail c s)) seqs.

Definition drop_head (c : PyClass) (s : list PyClass) : list PyClass :=
  match s with
  | x :: s' => if decide (x = c) then s' else s
  | [] => []
  end.

Definition nonempty (s : list PyClass) : bool :=
  match s with [] => false | _ => true end.

Fixpoint c3_merge (fuel : nat) (seqs : list (list PyClass)) : option (list PyClass) :=
  match fuel with
  | O => None
  | S fuel' =>
      let seqs := List.filter nonempty seqs in
      match seqs with
      | [] => Some []
      | _ =>
          match List.find (good_head seqs) (omap head seqs) with
          | None => None
          | Some c => (c ::.) <$> c3_merge fuel' (map (drop_head c) seqs)
          end
      end
  end.

Fixpoint mro_fuel (fuel : nat) (c : PyClass) : option (list PyClass) :=
  match fuel with
  | O => None
  | S fuel' =>
      ms ← mapM (mro_fuel fuel') (bases c);
      r ← c3_merge 16 (ms ++ [bases c])%list;
      Some (c :: r)
  end.

Definition mro (c : PyClass) : list PyClass :=
  default [] (mro_fuel 8 c).

Definition isinstance_of (objcls T : PyClass) : bool :=
  bool_decide (T ∈ mro objcls).

Fixpoint after (T : PyClass) (l : list PyClass) : list PyClass :=
  match l with
  | [] => []
  | c :: l' => if decide (c = T) then l' else after T l'
  end.

(** [super(T, self)]: the part of [type(self).__mro__] that follows [T];
    Python raises [TypeError] when [self] is not an instance of [T]. *)
Definition py_super (T objcls : PyClass) : result (list PyClass) :=
  if isinstance_of objcls T then Ok (after T (mro objcls))
  else Raise (TypeError "super(type, obj): obj must be an instance or subtype of type").


(** ** Objects of the model layer *)

(** [django.core.checks] messages. *)
Inductive Level := Warning_ | Error_.

Record CheckMessage := mkCheckMessage {
  chk_level : Level;
  chk_msg : string;
  chk_hint : string;
  chk_id : string;
}.

(** [checks.Error(msg, hint=.., obj=self, id=..)] and [checks.Warning(..)];
    [obj] is always the field under check and is left out. *)
Definition checks_Error (msg hint id : string) : CheckMessage :=
  mkCheckMessage Error_ msg hint id.
Definition checks_Warning (msg hint id : string) : CheckMessage :=
  mkCheckMessage Warning_ msg hint id.

(** [SimpleLazyObject(lambda: self.model._meta.pk.column)]: the only thunk
    the sources build.  [_wrapped] is empty until the first use and holds
    the computed value afterwards. *)
Record SimpleLazyObject := mkLazy {
  _wrapped : option string;
}.

Inductive Column :=
  | ColumnStr (s : string)
  | ColumnLazyPk (l : SimpleLazyObject).

(** A field instance ([self] in [field.py]).  [f_class] is [type(self)];
    [f_name], [f_attname], [f_column] and [f_model] are the attributes the
    host's [contribute_to_class] fills in. *)
Record Field := mkField {
  f_class : PyClass;
  f_salt : option string;
  f_min_length : Z;
  f_alphabet : string;
  f_prefix : option string;
  f_allow_int_lookup : bool;
  f_error_messages_arg : gmap string string;
  f_name : option string;
  f_attname : string;
  f_column : option Column;
  f_model : option string;
}.

(** [self.column = c] *)
Definition set_column (c : Column) (f : Field) : Field :=
  mkField (f_class f) (f_salt f) (f_min_length f) (f_alphabet f) (f_prefix f)
    (f_allow_int_lookup f) (f_error_messages_arg f) (f_name f) (f_attname f)
    (Some c) (f_model f).

(** The descriptor object ([self] in [descriptor.py]). *)
Record HashidDescriptor := mkDescriptor {
  d_name : string;
  d_salt : option string;
  d_min_length : Z;
  d_alphabet : string;
  d_prefix : option string;
}.

(** A model instance: its [__dict__]. *)
Record Instance := mkInstance {
  inst_dict : gmap string PyValue;
}.

(** The primary-key field as seen through [_meta.pk]. *)
Record PkField := mkPk {
  pk_column : string;
}.

(** A model class: the attributes set on it with [setattr] and its
    [_meta.pk]. *)
Record ModelClass := mkModelClass {
  cls_name : string;
  cls_attrs : gmap string HashidDescriptor;
  cls_meta_pk : option PkField;
}.

Definition setattr (cls : ModelClass) (n : string) (d : HashidDescriptor) : ModelClass :=
  mkModelClass (cls_name cls) (<[n := d]> (cls_attrs cls)) (cls_meta_pk cls).

(** The lookup classes [get_lookup] can return; [HostLookup] stands for a
    class of the host ORM. *)
Inductive LookupClass :=
  | HashidLookup
  | HashidIterableLookup
  | HostLookup (n : string).

(** ** The host ORM

    [field.py] reaches the host's field classes only through [super]: each
    operation below is the method found on the classes that follow the
    calling class in the method resolution order, which is passed as the
    first argument. *)
Class HostORM := {
  super_contribute_to_class :
    list PyClass -> Field -> ModelClass -> string -> gmap string PyValue ->
    result (Field * ModelClass);
  super_get_lookup : list PyClass -> Field -> string -> result (option LookupClass);
  super_check : list PyClass -> Field -> gmap string PyValue -> result (list CheckMessage);
  (** The [default_error_messages] the host's classes contribute. *)
  host_default_error_messages : gmap string string;
  (** [message % mapping] on one of the field's error messages: the text
      with the mapping filled in, or the exception the formatting raises
      on a template it cannot fill. *)
  format_message : string -> gmap string PyValue -> result string;
}.

(** ** descriptor.py *)

Module HashidDescriptor.
Section methods.
Context `{HM : HashidModule}.

Definition config (self : HashidDescriptor) : Config :=
  mkConfig (d_salt self) (d_min_length self) (d_alphabet self) (d_prefix self).

Definition __init__ (name : string) (salt : option string) (min_length : Z)
    (alphabet : string) (prefix : option string) : HashidDescriptor :=
  mkDescriptor name salt min_length alphabet prefix.

Definition __get__ (self : HashidDescriptor) (instance : option Instance) : result PyValue :=
  match instance with
  | Some inst =>
      match inst_dict inst !! d_name self with
      | Some value => h ← Hashid_new value (config self); Ok (VHashid h)
      | None => Ok VNone
      end
  | None => Ok VNone
  end.

Definition store (self : HashidDescriptor) (instance : Instance) (v : PyValue) : Instance :=
  mkInstance (<[d_name self := v]> (inst_dict instance)).

Definition __set__ (self : HashidDescriptor) (instance : Instance) (value : PyValue)
    : result Instance :=
  if isinstance_Hashid value || is_None value then
    Ok (store self instance value)
  else
    match Hashid_new value (config self) with
    | Ok h => Ok (store self instance (VHashid h))
    | Raise e =>
        if is_ValueError e then Ok (store self instance value)
        else Raise e
    end.
End methods.
End HashidDescriptor.

(** ** field.py *)

Module HashidFieldMixin.
Section methods.
Context `{HM : HashidModule} `{HO : HostORM}.

Definition default_error_messages : gmap string string :=
  {[ "invalid" := "'%(value)s' value must be a positive integer or a valid Hashids string.";
     "invalid_hashid" := "'%(value)s' value must be a valid Hashids string." ]}.

Definition exact_lookups : list string := ["exact"; "iexact"; "contains"; "icontains"].
Definition iterable_lookups : list string := ["in"].
Definition passthrough_lookups : list string := ["isnull"].

(** [self.error_messages], which the host's constructor assembles from the
    [default_error_messages] of the classes along the method resolution
    order (earlier classes win) and the [error_messages] argument. *)
Definition error_messages (self : Field) : gmap string string :=
  f_error_messages_arg self ∪ (default_error_messages ∪ host_default_error_messages).

(** [self.error_messages[key]] *)
Definition error_message (self : Field) (key : string) : result string :=
  match error_messages self !! key with
  | Some m => Ok m
  | None => Raise (OtherError "KeyError")
  end.

Definition config (self : Field) : Config :=
  mkConfig (f_salt self) (f_min_length self) (f_alphabet self) (f_prefix self).

Definition _check_alphabet_min_length (self : Field) : list CheckMessage :=
  if Z.of_nat (String.length (f_alphabet self)) <? 16 then
    [checks_Error "'alphabet' must contain a minimum of 16 characters"
       "Add more characters to custom 'alphabet'" "HashidField.E001"]
  else [].

Definition _check_salt_is_set (self : Field) : list CheckMessage :=
  if bool_decide (f_salt self = None) || bool_decide (f_salt self = Some "") then
    [checks_Warning "'salt' is not set"
       "Pass a salt value in your field or set settings.HASHID_FIELD_SALT"
       "HashidField.W001"]
  else [].

Definition check (self : Field) (kwargs : gmap string PyValue)
    : result (list CheckMessage) :=
  sup ← py_super HashidFieldMixin (f_class self);
  errors ← super_check sup self kwargs;
  let errors := (errors ++ _check_alphabet_min_length self)%list in
  let errors := (errors ++ _check_salt_is_set self)%list in
  Ok errors.

Definition encode_id (self : Field) (id : PyValue) : result Hashid :=
  Hashid_new id (config self).

Definition from_db_value {E C X : Type} (self : Field) (value : PyValue)
    (expression : E) (connection : C) (context : X) : PyValue :=
  value.

Definition get_lookup (self : Field) (lookup_name : string)
    : result (option LookupClass) :=
  if bool_decide (lookup_name ∈ exact_lookups) then Ok (Some HashidLookup)
  else if bool_decide (lookup_name ∈ iterable_lookups) then Ok (Some HashidIterableLookup)
  else if bool_decide (lookup_name ∈ passthrough_lookups) then
    sup ← py_super HashidFieldMixin (f_class self);
    super_get_lookup sup self lookup_name
  else Ok None.

Definition to_python (self : Field) (value : PyValue) : result PyValue :=
  if isinstance_Hashid value then Ok value
  else if is_None value then Ok value
  else
    match encode_id self value with
    | Ok hashid => Ok (VHashid hashid)
    | Raise e =>
        if is_ValueError e then
          msg ← error_message self "invalid";
          Raise (ValidationError msg "invalid" value)
        else Raise e
    end.

Definition get_prep_value (self : Field) (value : PyValue) : result PyValue :=
  if is_None value || eq_empty_str value then Ok VNone
  else
    match value with
    | VHashid h => Ok (VInt (hashid_id h))
    | _ =>
        match encode_id self value with
        | Ok hashid => Ok (VInt (hashid_id hashid))
        | Raise e =>
            if is_ValueError e then
              msg ← error_message self "invalid";
              text ← format_message msg {[ "value" := value ]};
              Raise (ValueError text VNone)
            else Raise e
        end
    end.
End methods.
End HashidFieldMixin.

(** The descriptor every [contribute_to_class] installs:
    [HashidDescriptor(self.attname, salt=self.salt, ...)]. *)
Definition descriptor_of (self : Field) : HashidDescriptor :=
  HashidDescriptor.__init__ (f_attname self) (f_salt self) (f_min_length self)
    (f_alphabet self) (f_prefix self).

Module HashidField.
Section methods.
Context `{HO : HostORM}.

Definition contribute_to_class (self : Field) (cls : ModelClass) (name : string)
    (kwargs : gmap string PyValue) : result (Field * ModelClass) :=
  sup ← py_super HashidField (f_class self);
  '(self, cls) ← super_contribute_to_class sup self cls name kwargs;
  Ok (self, setattr cls (f_attname self) (descriptor_of self)).
End methods.
End HashidField.

Module HashidAutoField.
Section methods.
Context `{HO : HostORM}.

Definition contribute_to_class (self : Field) (cls : ModelClass) (name : string)
    (kwargs : gmap string PyValue) : result (Field * ModelClass) :=
  sup ← py_super HashidField (f_class self);
  '(self, cls) ← super_contribute_to_class sup self cls name kwargs;
  Ok (self, setattr cls (f_attname self) (descriptor_of self)).
End methods.
End HashidAutoField.

Module PrimaryKeyHashidProxyField.
Section methods.
Context `{HO : HostORM}.

Definition contribute_to_class (self : Field) (cls : ModelClass) (name : string)
    (kwargs : gmap string PyValue) : result (Field * ModelClass) :=
  let kwargs := <["virtual_only" := VBool true]> kwargs in
  sup ← py_super PrimaryKeyHashidProxyField (f_class self);
  '(self, cls) ← super_contribute_to_class sup self cls name kwargs;
  let cls := setattr cls (f_attname self) (descriptor_of self) in
  let self := set_column (ColumnLazyPk (mkLazy None)) self in
  Ok (self, cls).
End methods.
End PrimaryKeyHashidProxyField.

(** ** Reading [self.column]

    Model classes are shared, mutable objects: a field refers to its model
    by name and the registry maps the name to the class as it currently
    is. *)




(** ** lookups.py *)

Module HashidIterableLookup.
Section methods.
Context `{HM : HashidModule}.

(** Modelled from the spec: the translation of one element of an [in]
    filter ([lookups.py] is not among the sources).  The element is
    decoded to its integer; with the allow-integer-lookup option a raw
    integer is passed through unchanged instead. *)
Definition decode_element (field : Field) (v : PyValue) : option Z :=
  match v with
  | VInt n =>
      if f_allow_int_lookup field then Some n
      else Hashid_decode (HashidFieldMixin.config field) v
  | _ => Hashid_decode (HashidFieldMixin.config field) v
  end.

(** Modelled from the spec: the translated integer list of an [in]
    filter; elements that fail to decode are dropped. *)
Definition translate (field : Field) (vs : list PyValue) : list Z :=
  omap (decode_element field) vs.

(** Modelled from the spec: the [in] lookup translator of [lookups.py].
    It raises a validation error (the containing query matches nothing)
    when the translation yields zero results. *)
Definition lookup (field : Field) (vs : list PyValue) : result (list Z) :=
  match translate field vs with
  | [] => Raise (ValidationError "no valid hashid in the list" "invalid" VNone)
  | ids => Ok ids
  end.
End methods.
End HashidIterableLookup.

(** ** A reference instance of the two interfaces

    A small positional codec over the configured alphabet and a host that
    records name, column and model on the field.  They are used to run the
    definitions above on concrete inputs. *)

Module Reference.

Fixpoint index_of (c : ascii) (s : string) : option nat :=
  match s with
  | EmptyString => None
  | String x s' => if decide (x = c) then Some O else S <$> index_of c s'
  end.

Fixpoint strip (p s : string) : option string :=
  match p, s with
  | EmptyString, _ => Some s
  | String a p', String b s' => if decide (a = b) then strip p' s' else None
  | String _ _, EmptyString => None
  end.

Fixpoint decode_from (alphabet : string) (acc : Z) (s : string) : option Z :=
  match s with
  | EmptyString => Some acc
  | String c s' =>
      i ← index_of c alphabet;
      decode_from alphabet (acc * Z.of_nat (String.length alphabet) + Z.of_nat i) s'
  end.

Definition decode (cfg : Config) (v : PyValue) : option Z :=
  match v with
  | VStr s =>
      body ← strip (default "" (cfg_prefix cfg)) s;
      if bool_decide (body = "") then None
      else decode_from (cfg_alphabet cfg) 0 body
  | _ => None
  end.

Definition digit (alphabet : string) (n : Z) : string :=
  String (default "?"%char (String.get (Z.to_nat n) alphabet)) EmptyString.

Fixpoint encode_fuel (fuel : nat) (alphabet : string) (n : Z) : string :=
  let b := Z.of_nat (String.length alphabet) in
  match fuel with
  | O => digit alphabet (n mod b)
  | S fuel' =>
      if n / b =? 0 then digit alphabet (n mod b)
      else String.append (encode_fuel fuel' alphabet (n / b)) (digit alphabet (n mod b))
  end.

Definition str (h : Hashid) : string :=
  String.append (default "" (cfg_prefix (hashid_cfg h)))
    (encode_fuel 64 (cfg_alphabet (hashid_cfg h)) (hashid_id h)).

(** Modelled from the spec: the constructor of [Hashid] takes a raw
    integer, another instance, or a hashid string from which the integer
    can be decoded; anything else is a value error. *)
Definition new (v : PyValue) (cfg : Config) : result Hashid :=
  if Z.of_nat (String.length (cfg_alphabet cfg)) <? 16 then
    Raise (ValueError "Alphabet must contain at least 16 unique characters" VNone)
  else
    match v with
    | VHashid h => Ok (mkHashid (hashid_id h) cfg)
    | VInt n =>
        if 0 <=? n then Ok (mkHashid n cfg)
        else Raise (ValueError "Underlying ids must be positive integers" VNone)
    | _ =>
        match decode cfg v with
        | Some n => Ok (mkHashid n cfg)
        | None =>
            Raise (ValueError "id must be a positive integer or a valid Hashid string" VNone)
        end
    end.

Lemma encode_fuel_nonempty (p : string) (fuel : nat) (al : string) (n : Z) :
  String.append p (encode_fuel fuel al n) <> "".
Proof.
  assert (Hd : forall s k, String.append s (digit al k) <> "")
    by (intros [|c s] k; unfold digit; cbn [String.append]; discriminate).
  destruct p as [|a p]; [|cbn [String.append]; discriminate].
  cbn [String.append].
  destruct fuel as [|fuel]; cbn [encode_fuel].
  - apply (Hd "").
  - destruct (n / _ =? 0); [apply (Hd "")|apply Hd].
Qed.

Lemma new_not_validation (v : PyValue) (c : Config) (msg code : string) (params : PyValue) :
  new v c <> Raise (ValidationError msg code params).
Proof.
  unfold new. destruct (_ <? 16); [discriminate|].
  destruct v; try (destruct (decode c _); discriminate); try discriminate.
  destruct (0 <=? n); discriminate.
Qed.

Definition hashid_module : HashidModule :=
  {| Hashid_new := new; Hashid_str := str; Hashid_decode := decode;
     Hashid_str_nonempty h := encode_fuel_nonempty _ _ _ _;
     Hashid_new_not_validation := new_not_validation |}.

(** A constructor that refuses booleans with a TypeError and otherwise
    behaves as [new]. *)
Definition new_typed (v : PyValue) (cfg : Config) : result Hashid :=
  match v with
  | VBool _ => Raise (TypeError "id must not be a bool")
  | _ => new v cfg
  end.

Lemma new_typed_not_validation (v : PyValue) (c : Config) (msg code : string)
    (params : PyValue) :
  new_typed v c <> Raise (ValidationError msg code params).
Proof. destruct v; try apply new_not_validation. discriminate. Qed.

Definition hashid_module_typed : HashidModule :=
  {| Hashid_new := new_typed; Hashid_str := str; Hashid_decode := decode;
     Hashid_str_nonempty h := encode_fuel_nonempty _ _ _ _;
     Hashid_new_not_validation := new_typed_not_validation |}.

(** Filling a template: [%%] is a percent sign and [%(key)s] the text of
    the value the mapping has under [key]; a key the mapping lacks, a key
    left open and any other use of the percent sign are refused as Python
    refuses them. *)
Definition render (v : PyValue) : string :=
  match v with
  | VNone => "None"
  | VBool true => "True"
  | VBool false => "False"
  | VInt n => pretty n
  | VStr s => s
  | VHashid h => str h
  end.

Fixpoint take_key (s : string) : option (string * string) :=
  match s with
  | EmptyString => None
  | String c s' =>
      if decide (c = ")"%char) then Some (EmptyString, s')
      else '(k, rest) ← take_key s'; Some (String c k, rest)
  end.

Fixpoint format_fuel (fuel : nat) (template : string) (mapping : gmap string PyValue)
    : result string :=
  match fuel with
  | O => Ok EmptyString
  | S fuel' =>
      match template with
      | EmptyString => Ok EmptyString
      | String "%" (String "%" rest) =>
          r ← format_fuel fuel' rest mapping; Ok (String "%" r)
      | String "%" (String "(" rest) =>
          match take_key rest with
          | Some (key, String "s" rest') =>
              match mapping !! key with
              | Some v =>
                  r ← format_fuel fuel' rest' mapping;
                  Ok (String.append (render v) r)
              | None => Raise (OtherError "KeyError")
              end
          | Some (_, EmptyString) => Raise (ValueError "incomplete format" VNone)
          | Some _ => Raise (ValueError "unsupported format character" VNone)
          | None => Raise (ValueError "incomplete format key" VNone)
          end
      | String "%" _ => Raise (TypeError "format requires a mapping")
      | String c rest => r ← format_fuel fuel' rest mapping; Ok (String c r)
      end
  end.

Definition format (template : string) (mapping : gmap string PyValue) : result string :=
  format_fuel (S (String.length template)) template mapping.

(** The host: [contribute_to_class] derives the attribute name and the
    column from the field name and records the owning model; every lookup
    name resolves to a class of the host; the checks of the host report
    nothing. *)
Definition host : HostORM :=
  {| super_contribute_to_class sup self cls name kwargs :=
       Ok (mkField (f_class self) (f_salt self) (f_min_length self)
             (f_alphabet self) (f_prefix self) (f_allow_int_lookup self)
             (f_error_messages_arg self) (Some name) name
             (Some (ColumnStr name)) (Some (cls_name cls)),
           cls);
     super_get_lookup sup self lookup_name := Ok (Some (HostLookup lookup_name));
     super_check sup self kwargs := Ok [];
     host_default_error_messages :=
       {[ "invalid" := "'%(value)s' value must be an integer." ]};
     format_message := format |}.

(** A parent's [deconstruct]: no positional arguments and one keyword
    of its own. *)
Definition deconstruct (sup : list PyClass) (self : Field)
    : result (string * string * list PyValue * gmap string PyValue) :=
  Ok ("ref", "hashid_field.field.HashidField", [], {[ "null" := VBool true ]}).

Definition alphabet62 : string :=
  "abcdefghijklmnopqrstuvwxyzABCDEFGHIJKLMNOPQRSTUVWXYZ1234567890".

Definition field (c : PyClass) : Field :=
  mkField c (Some "a salt") 7 alphabet62 None false ∅ None "" None None.

Definition model : ModelClass :=
  mkModelClass "Record" ∅ (Some (mkPk "id")).

End Reference.

(** ** field.py: construction, deconstruction and the form field *)

(** The defaults of the constructor's parameters: the three values
    [hashid_field.conf.settings] supplies and [Hashids.ALPHABET]. *)
Record Defaults := mkDefaults {
  HASHID_FIELD_SALT : PyValue;
  HASHID_FIELD_MIN_LENGTH : PyValue;
  HASHID_FIELD_ALLOW_INT_LOOKUP : PyValue;
  Hashids_ALPHABET : PyValue;
}.

(** [self] when [HashidFieldMixin.__init__] reaches its last line: the
    attributes it has set, the warnings it has issued, and the arguments it
    hands to the parent's [__init__]. *)
Record Constructed := mkConstructed {
  c_salt : PyValue;
  c_min_length : PyValue;
  c_alphabet : PyValue;
  c_prefix : PyValue;
  c_allow_int_lookup : PyValue;
  c_warnings : list (string * string);
  c_super_args : list PyValue;
  c_super_kwargs : gmap string PyValue;
}.

(** The values [formfield] handles: the three classes it names and
    anything else the caller passes. *)
Inductive FormArg :=
  | CharField
  | AdminIntegerFieldWidget
  | AdminTextInputWidget
  | FormOther (v : PyValue).

#[global] Instance FormArg_eq_dec : EqDecision FormArg.
Proof. solve_decision. Defined.

Definition of_prefix (p : option string) : PyValue :=
  match p with
  | None => VNone
  | Some s => VStr s
  end.

Module HashidFieldMixin_init.

Definition __init__ (salt min_length alphabet allow_int_lookup prefix : PyValue)
    (args : list PyValue) (kwargs : gmap string PyValue) : Constructed :=
  match kwargs !! "allow_int" with
  | Some allow_int =>
      mkConstructed salt min_length alphabet prefix allow_int
        [("DeprecationWarning",
          "The 'allow_int' parameter was renamed to 'allow_int_lookup'.")]
        args (delete "allow_int" kwargs)
  | None =>
      mkConstructed salt min_length alphabet prefix allow_int_lookup [] args kwargs
  end.

(** The parameters of [__init__] that precede the starred ones, in order. *)
Definition parameters : list string :=
  ["salt"; "min_length"; "alphabet"; "allow_int_lookup"; "prefix"].

(** How a call binds one named parameter: the positional argument at its
    place if there is one (a keyword of the same name is then a TypeError),
    else the keyword, else the default. *)
Definition bind_parameter (i : nat) (name : string) (default_ : PyValue)
    (args : list PyValue) (kwargs : gmap string PyValue) : result PyValue :=
  match args !! i with
  | Some v =>
      match kwargs !! name with
      | Some _ => Raise (TypeError "__init__() got multiple values for argument")
      | None => Ok v
      end
  | None => Ok (default default_ (kwargs !! name))
  end.

(** A call of the class with positional and keyword arguments, as far as
    [HashidFieldMixin.__init__]: the named parameters are bound, what is
    left of the positional arguments goes to the starred parameter [args]
    and what is left of the keywords to [kwargs]. *)
Definition call (D : Defaults) (args : list PyValue) (kwargs : gmap string PyValue)
    : result Constructed :=
  salt ← bind_parameter 0 "salt" (HASHID_FIELD_SALT D) args kwargs;
  min_length ← bind_parameter 1 "min_length" (HASHID_FIELD_MIN_LENGTH D) args kwargs;
  alphabet ← bind_parameter 2 "alphabet" (Hashids_ALPHABET D) args kwargs;
  allow_int_lookup ←
    bind_parameter 3 "allow_int_lookup" (HASHID_FIELD_ALLOW_INT_LOOKUP D) args kwargs;
  prefix ← bind_parameter 4 "prefix" VNone args kwargs;
  Ok (__init__ salt min_length alphabet allow_int_lookup prefix
        (drop 5 args) (foldr delete kwargs parameters)).

Section deconstruct.
(** The parent's [deconstruct], found along the method resolution order. *)
Variable super_deconstruct :
  list PyClass -> Field ->
  result (string * string * list PyValue * gmap string PyValue).

Definition deconstruct (self : Field)
    : result (string * string * list PyValue * gmap string PyValue) :=
  sup ← py_super HashidFieldMixin (f_class self);
  '(name, path, args, kwargs) ← super_deconstruct sup self;
  let kwargs := <["min_length" := VInt (f_min_length self)]> kwargs in
  let kwargs := <["alphabet" := VStr (f_alphabet self)]> kwargs in
  let kwargs := <["prefix" := of_prefix (f_prefix self)]> kwargs in
  Ok (name, path, args, kwargs).
End deconstruct.

End HashidFieldMixin_init.

Module HashidField_form.

(** The dictionary [formfield] builds before it calls the parent. *)
Definition defaults (kwargs : gmap string FormArg) : gmap string FormArg :=
  let defaults : gmap string FormArg := {[ "form_class" := CharField ]} in
  let defaults := kwargs ∪ defaults in
  if bool_decide (defaults !! "widget" = Some AdminIntegerFieldWidget) then
    <["widget" := AdminTextInputWidget]> defaults
  else defaults.

Section formfield.
Context {R : Type}.
(** The parent's [formfield], found along the method resolution order. *)
Variable super_formfield : list PyClass -> Field -> gmap string FormArg -> result R.

Definition formfield (self : Field) (kwargs : gmap string FormArg) : result R :=
  sup ← py_super HashidField (f_class self);
  super_formfield sup self (defaults kwargs).
End formfield.

End HashidField_form.

(** The two messages of the configuration checks. *)
Definition E001 : CheckMessage :=
  checks_Error "'alphabet' must contain a minimum of 16 characters"
    "Add more characters to custom 'alphabet'" "HashidField.E001".

Definition W001 : CheckMessage :=
  checks_Warning "'salt' is not set"
    "Pass a salt value in your field or set settings.HASHID_FIELD_SALT"
    "HashidField.W001".

(** * Properties *)

(** ** Method resolution *)

Example mro_HashidField :
  mro HashidField =
  [HashidField; HashidFieldMixin; IntegerField; Field_; RegisterLookupMixin; object_].
Proof. reflexivity. Qed.

Example mro_HashidAutoField :
  mro HashidAutoField =
  [HashidAutoField; HashidFieldMixin; AutoField; Field_; RegisterLookupMixin; object_].
Proof. reflexivity. Qed.

Example mro_PrimaryKeyHashidProxyField :
  mro PrimaryKeyHashidProxyField =
  [PrimaryKeyHashidProxyField; HashidFieldMixin; IntegerField; Field_;
   RegisterLookupMixin; object_].
Proof. reflexivity. Qed.

Lemma py_super_instance (T c : PyClass) :
  isinstance_of c T = true -> py_super T c = Ok (after T (mro c)).
Proof. intros Hi. unfold py_super. by rewrite Hi. Qed.

Lemma py_super_not_instance (T c : PyClass) :
  isinstance_of c T = false -> exists msg, py_super T c = Raise (TypeError msg).
Proof. intros Hi. unfold py_super. rewrite Hi. eauto. Qed.

(** ** Values *)

Lemma not_Hashid_not_None_cases (v : PyValue) :
  isinstance_Hashid v = false -> is_None v = false ->
  (exists b, v = VBool b) \/ (exists n, v = VInt n) \/ (exists s, v = VStr s).
Proof. destruct v; simpl; intros; try discriminate; eauto. Qed.

Section value_conversion.
Context `{HM : HashidModule} `{HO : HostORM}.

Lemma eq_empty_str_Hashid (h : Hashid) : eq_empty_str (VHashid h) = false.
Proof.
  simpl. unfold Hashid_eq_str. apply bool_decide_eq_false, Hashid_str_nonempty.
Qed.

Lemma eq_empty_str_true (v : PyValue) :
  eq_empty_str v = true <-> v = VStr "".
Proof.
  split.
  - destruct v as [| | |s|h]; simpl; try discriminate.
    + intros Hs. apply bool_decide_eq_true in Hs. by subst.
    + intros Hh. apply bool_decide_eq_true in Hh.
      by destruct (Hashid_str_nonempty h).
  - intros ->. reflexivity.
Qed.

Lemma error_messages_invalid (self : Field) :
  exists m, HashidFieldMixin.error_message self "invalid" = Ok m.
Proof.
  unfold HashidFieldMixin.error_message, HashidFieldMixin.error_messages.
  destruct (_ !! "invalid") as [m|] eqn:Hm; [eauto|].
  apply lookup_union_None in Hm as [_ Hm].
  apply lookup_union_None in Hm as [Hm _].
  unfold HashidFieldMixin.default_error_messages in Hm.
  by rewrite lookup_insert_eq in Hm.
Qed.

Lemma descriptor_of_config (self : Field) :
  HashidDescriptor.config (descriptor_of self) = HashidFieldMixin.config self.
Proof. reflexivity. Qed.

Lemma get_prep_value_empty_string (self : Field) :
  HashidFieldMixin.get_prep_value self (VStr "") = Ok VNone.
Proof. reflexivity. Qed.

Lemma set_stores (d : HashidDescriptor) (inst : Instance) (v : PyValue) :
  inst_dict (HashidDescriptor.store d inst v) !! d_name d = Some v.
Proof. simpl. apply lookup_insert_eq. Qed.

(** What [get_prep_value] does with a value the constructor rejects: the
    field's 'invalid' message is filled in with the value and raised as a
    ValueError, unless filling it in raises first. *)
Lemma get_prep_value_rejected (self : Field) (v : PyValue) (e : exn) :
  isinstance_Hashid v = false ->
  is_None v = false ->
  v <> VStr "" ->
  is_ValueError e = true ->
  Hashid_new v (HashidFieldMixin.config self) = Raise e ->
  exists m,
    HashidFieldMixin.error_message self "invalid" = Ok m
    /\ HashidFieldMixin.get_prep_value self v
       = (text ← format_message m {[ "value" := v ]}; Raise (ValueError text VNone)).
Proof.
  intros Hh Hn Hne He Hnew.
  destruct (error_messages_invalid self) as [m Hm]. exists m. split; [done|].
  unfold HashidFieldMixin.get_prep_value. rewrite Hn. simpl orb.
  destruct (eq_empty_str v) eqn:Hv.
  { apply eq_empty_str_true in Hv. contradiction. }
  unfold HashidFieldMixin.encode_id.
  destruct v; try discriminate; rewrite Hnew, He, Hm; reflexivity.
Qed.

(** C1 (as amended): a value other than the empty string that is neither
    a Hashid nor None and whose wrapping raises ValueError is stored as it
    is by the descriptor's [__set__], without an exception, and makes
    [get_prep_value] raise an error: the ValueError built from the field's
    'invalid' message, or the exception of filling that message in. *)
Theorem set_keeps_raw_value_prep_raises (self : Field) (inst : Instance) (v : PyValue) :
  isinstance_Hashid v = false ->
  is_None v = false ->
  v <> VStr "" ->
  (exists msg arg,
      Hashid_new v (HashidFieldMixin.config self) = Raise (ValueError msg arg)) ->
  let d := descriptor_of self in
  HashidDescriptor.__set__ d inst v = Ok (HashidDescriptor.store d inst v)
  /\ inst_dict (HashidDescriptor.store d inst v) !! f_attname self = Some v
  /\ raises (HashidFieldMixin.get_prep_value self v)
  /\ exists m,
       HashidFieldMixin.error_message self "invalid" = Ok m
       /\ HashidFieldMixin.get_prep_value self v
          = (text ← format_message m {[ "value" := v ]}; Raise (ValueError text VNone)).
Proof.
  intros Hh Hn He (msg & arg & Hnew) d.
  destruct (get_prep_value_rejected self v (ValueError msg arg) Hh Hn He eq_refl Hnew)
    as (m & Hm & Hprep).
  split; [|split; [|split]].
  - unfold HashidDescriptor.__set__. rewrite Hh, Hn. simpl orb. cbv iota.
    subst d. rewrite descriptor_of_config, Hnew. reflexivity.
  - apply (set_stores d).
  - rewrite Hprep. by destruct (format_message m _).
  - eauto.
Qed.

(** C6: [to_python] returns a Hashid instance and None unchanged; any
    other value is returned wrapped when the wrapping succeeds; when the
    wrapping raises ValueError, [to_python] raises a ValidationError with
    code 'invalid' for that value, and it raises a ValidationError in no
    other case. *)
Theorem to_python_cases (self : Field) (v : PyValue) :
  (isinstance_Hashid v = true -> HashidFieldMixin.to_python self v = Ok v)
  /\ (v = VNone -> HashidFieldMixin.to_python self v = Ok VNone)
  /\ (isinstance_Hashid v = false -> is_None v = false ->
      (forall h, Hashid_new v (HashidFieldMixin.config self) = Ok h ->
                 HashidFieldMixin.to_python self v = Ok (VHashid h))
      /\ ((exists msg arg,
              Hashid_new v (HashidFieldMixin.config self) = Raise (ValueError msg arg)) ->
          exists msg,
            HashidFieldMixin.to_python self v = Raise (ValidationError msg "invalid" v)))
  /\ (forall msg code params,
        HashidFieldMixin.to_python self v = Raise (ValidationError msg code params) ->
        code = "invalid" /\ params = v
        /\ isinstance_Hashid v = false /\ is_None v = false
        /\ exists msg' arg,
             Hashid_new v (HashidFieldMixin.config self) = Raise (ValueError msg' arg)).
Proof.
  unfold HashidFieldMixin.to_python, HashidFieldMixin.encode_id.
  split; [|split; [|split]].
  - intros Hh. by rewrite Hh.
  - intros ->. reflexivity.
  - intros Hh Hn. rewrite Hh, Hn. split.
    + intros h ->. reflexivity.
    + intros (msg & arg & ->). simpl.
      destruct (error_messages_invalid self) as [m ->]. simpl. eauto.
  - intros msg code params.
    destruct (isinstance_Hashid v) eqn:Hh; [discriminate|].
    destruct (is_None v) eqn:Hn; [discriminate|].
    destruct (Hashid_new v (HashidFieldMixin.config self)) as [h|e] eqn:Hnew;
      [discriminate|].
    destruct e as [m a|m|a|m c p|m]; simpl; try discriminate.
    + destruct (error_messages_invalid self) as [m' ->]. simpl.
      intros [= <- <- <-]. eauto 10.
    + by destruct (Hashid_new_not_validation v (HashidFieldMixin.config self) m c p).
Qed.

(** C9: [get_prep_value] returns None for None and for the empty string
    alike, and the underlying integer id for every Hashid instance. *)
Theorem get_prep_value_none_empty_hashid (self : Field) :
  HashidFieldMixin.get_prep_value self VNone = Ok VNone
  /\ HashidFieldMixin.get_prep_value self (VStr "") = Ok VNone
  /\ forall h, HashidFieldMixin.get_prep_value self (VHashid h) = Ok (VInt (hashid_id h)).
Proof.
  split; [reflexivity|split; [reflexivity|]].
  intros h. unfold HashidFieldMixin.get_prep_value.
  rewrite eq_empty_str_Hashid. reflexivity.
Qed.
End value_conversion.

(** ** Database values and the descriptor *)

Section descriptor.
Context `{HM : HashidModule} `{HO : HostORM}.

Lemma get_unset (d : HashidDescriptor) (inst : Instance) :
  inst_dict inst !! d_name d = None -> HashidDescriptor.__get__ d (Some inst) = Ok VNone.
Proof. intros Hd. unfold HashidDescriptor.__get__. by rewrite Hd. Qed.

(** C10 (as amended): [from_db_value] returns the value loaded from the
    database unchanged, so an integer stays an integer and is not a
    Hashid; the wrapping happens later, in the descriptor: in [__set__]
    when the loaded value is assigned to the attribute and the constructor
    accepts it, and in [__get__] whenever the attribute is read. *)
Theorem from_db_value_unwrapped_descriptor_wraps {E C X : Type}
    (self : Field) (v : PyValue) (expression : E) (connection : C) (context : X) :
  let raw := HashidFieldMixin.from_db_value self v expression connection context in
  raw = v
  /\ (forall n,
        isinstance_Hashid
          (HashidFieldMixin.from_db_value self (VInt n) expression connection context)
        = false)
  /\ (forall (d : HashidDescriptor) (inst : Instance) (h : Hashid),
        isinstance_Hashid v = false -> is_None v = false ->
        Hashid_new v (HashidDescriptor.config d) = Ok h ->
        HashidDescriptor.__set__ d inst raw
        = Ok (HashidDescriptor.store d inst (VHashid h)))
  /\ (forall (d : HashidDescriptor) (inst : Instance),
        let inst' := mkInstance (<[d_name d := raw]> (inst_dict inst)) in
        HashidDescriptor.__get__ d (Some inst')
        = (h ← Hashid_new v (HashidDescriptor.config d); Ok (VHashid h))).
Proof.
  intros raw. subst raw. unfold HashidFieldMixin.from_db_value.
  split; [reflexivity|split; [reflexivity|split]].
  - intros d inst h Hh Hn Hnew. unfold HashidDescriptor.__set__.
    by rewrite Hh, Hn, Hnew.
  - intros d inst. unfold HashidDescriptor.__get__. simpl.
    by rewrite lookup_insert_eq.
Qed.
End descriptor.

(** ** Configuration checks *)

Section checks.
Context `{HM : HashidModule} `{HO : HostORM}.

Lemma check_eq (self : Field) (kwargs : gmap string PyValue)
    (errors : list CheckMessage) :
  isinstance_of (f_class self) HashidFieldMixin = true ->
  super_check (after HashidFieldMixin (mro (f_class self))) self kwargs = Ok errors ->
  HashidFieldMixin.check self kwargs
  = Ok (errors ++ HashidFieldMixin._check_alphabet_min_length self
               ++ HashidFieldMixin._check_salt_is_set self)%list.
Proof.
  intros Hi Hs. unfold HashidFieldMixin.check.
  rewrite (py_super_instance _ _ Hi). simpl. rewrite Hs. simpl.
  by rewrite <- app_assoc.
Qed.

Lemma salt_check_ids (self : Field) (m : CheckMessage) :
  m ∈ HashidFieldMixin._check_salt_is_set self -> m = W001.
Proof.
  unfold HashidFieldMixin._check_salt_is_set.
  destruct (_ || _); [|by intros ?%elem_of_nil].
  by intros ->%list_elem_of_singleton.
Qed.

Lemma alphabet_check_ids (self : Field) (m : CheckMessage) :
  m ∈ HashidFieldMixin._check_alphabet_min_length self -> m = E001.
Proof.
  unfold HashidFieldMixin._check_alphabet_min_length.
  destruct (_ <? 16); [|by intros ?%elem_of_nil].
  by intros ->%list_elem_of_singleton.
Qed.

(** C7: a field whose alphabet has fewer than 16 characters gets the
    fatal Error HashidField.E001 from the alphabet check, and so from
    [check]; with 16 characters or more the alphabet check reports
    nothing and [check] holds that error only if the host reported it. *)
Theorem check_alphabet_min_length (self : Field) :
  (Z.of_nat (String.length (f_alphabet self)) < 16 ->
     HashidFieldMixin._check_alphabet_min_length self = [E001]
     /\ chk_level E001 = Error_ /\ chk_id E001 = "HashidField.E001"
     /\ forall kwargs errors,
          isinstance_of (f_class self) HashidFieldMixin = true ->
          super_check (after HashidFieldMixin (mro (f_class self))) self kwargs = Ok errors ->
          exists msgs, HashidFieldMixin.check self kwargs = Ok msgs /\ E001 ∈ msgs)
  /\ (16 <= Z.of_nat (String.length (f_alphabet self)) ->
     HashidFieldMixin._check_alphabet_min_length self = []
     /\ forall kwargs errors,
          isinstance_of (f_class self) HashidFieldMixin = true ->
          super_check (after HashidFieldMixin (mro (f_class self))) self kwargs = Ok errors ->
          exists msgs, HashidFieldMixin.check self kwargs = Ok msgs
                       /\ (E001 ∈ msgs <-> E001 ∈ errors)).
Proof.
  split; intros Hlen.
  - assert (Hc : HashidFieldMixin._check_alphabet_min_length self = [E001]).
    { unfold HashidFieldMixin._check_alphabet_min_length.
      by rewrite (proj2 (Z.ltb_lt _ _) Hlen). }
    repeat split; [done|].
    intros kwargs errors Hi Hs. eexists. split; [by apply check_eq|].
    rewrite Hc, !elem_of_app, list_elem_of_singleton. tauto.
  - assert (Hc : HashidFieldMixin._check_alphabet_min_length self = []).
    { unfold HashidFieldMixin._check_alphabet_min_length.
      by rewrite (proj2 (Z.ltb_ge _ _) Hlen). }
    split; [done|].
    intros kwargs errors Hi Hs. eexists. split; [by apply check_eq|].
    rewrite Hc. simpl. rewrite elem_of_app. split; [|by left].
    intros [?|Hw]; [done|]. by apply salt_check_ids in Hw.
Qed.

(** C8: a field whose salt is None or the empty string gets the Warning
    HashidField.W001, which is not an Error, from the salt check, and so
    from [check]; with a non-empty salt the salt check reports nothing
    and [check] holds that warning only if the host reported it. *)
Theorem check_salt_is_set (self : Field) :
  (f_salt self = None \/ f_salt self = Some "" ->
     HashidFieldMixin._check_salt_is_set self = [W001]
     /\ chk_level W001 = Warning_ /\ chk_id W001 = "HashidField.W001"
     /\ forall kwargs errors,
          isinstance_of (f_class self) HashidFieldMixin = true ->
          super_check (after HashidFieldMixin (mro (f_class self))) self kwargs = Ok errors ->
          exists msgs, HashidFieldMixin.check self kwargs = Ok msgs /\ W001 ∈ msgs)
  /\ (forall salt, f_salt self = Some salt -> salt <> "" ->
     HashidFieldMixin._check_salt_is_set self = []
     /\ forall kwargs errors,
          isinstance_of (f_class self) HashidFieldMixin = true ->
          super_check (after HashidFieldMixin (mro (f_class self))) self kwargs = Ok errors ->
          exists msgs, HashidFieldMixin.check self kwargs = Ok msgs
                       /\ (W001 ∈ msgs <-> W001 ∈ errors)).
Proof.
  split.
  - intros Hsalt.
    assert (Hc : HashidFieldMixin._check_salt_is_set self = [W001]).
    { unfold HashidFieldMixin._check_salt_is_set.
      destruct Hsalt as [Hn|He]; [rewrite Hn|rewrite He]; reflexivity. }
    repeat split; [done|].
    intros kwargs errors Hi Hs. eexists. split; [by apply check_eq|].
    rewrite Hc, !elem_of_app, list_elem_of_singleton. tauto.
  - intros salt Hsalt Hne.
    assert (Hc : HashidFieldMixin._check_salt_is_set self = []).
    { unfold HashidFieldMixin._check_salt_is_set. rewrite Hsalt.
      rewrite bool_decide_eq_false_2 by discriminate.
      rewrite bool_decide_eq_false_2 by congruence. reflexivity. }
    split; [done|].
    intros kwargs errors Hi Hs. eexists. split; [by apply check_eq|].
    rewrite Hc, app_nil_r, elem_of_app. split; [|by left].
    intros [?|He]; [done|]. by apply alphabet_check_ids in He.
Qed.
End checks.

(** ** Lookups *)

Section lookups.
Context `{HM : HashidModule} `{HO : HostORM}.

(** C3: [get_lookup] returns [HashidLookup] for 'exact', 'iexact',
    'contains' and 'icontains', [HashidIterableLookup] for 'in', the
    answer of the parent class for 'isnull', and None for every other
    lookup name. *)
Theorem get_lookup_cases (self : Field) (lookup_name : string) :
  (lookup_name ∈ ["exact"; "iexact"; "contains"; "icontains"] ->
     HashidFieldMixin.get_lookup self lookup_name = Ok (Some HashidLookup))
  /\ (lookup_name = "in" ->
     HashidFieldMixin.get_lookup self lookup_name = Ok (Some HashidIterableLookup))
  /\ (lookup_name = "isnull" ->
     HashidFieldMixin.get_lookup self lookup_name
     = (sup ← py_super HashidFieldMixin (f_class self);
        super_get_lookup sup self "isnull")
     /\ (isinstance_of (f_class self) HashidFieldMixin = true ->
         HashidFieldMixin.get_lookup self lookup_name
         = super_get_lookup (after HashidFieldMixin (mro (f_class self))) self "isnull"))
  /\ (lookup_name ∉ ["exact"; "iexact"; "contains"; "icontains"; "in"; "isnull"] ->
     HashidFieldMixin.get_lookup self lookup_name = Ok None).
Proof.
  unfold HashidFieldMixin.get_lookup, HashidFieldMixin.exact_lookups,
    HashidFieldMixin.iterable_lookups, HashidFieldMixin.passthrough_lookups.
  repeat split.
  - intros Hin. by rewrite bool_decide_eq_true_2.
  - intros ->. reflexivity.
  - subst. reflexivity.
  - subst. intros Hi. cbn. by rewrite (py_super_instance _ _ Hi).
  - intros Hn. repeat (apply not_elem_of_cons in Hn as [? Hn]).
    rewrite !bool_decide_eq_false_2; [done|..];
      rewrite ?elem_of_cons, elem_of_nil; tauto.
Qed.
End lookups.

Section in_lookup.
Context `{HM : HashidModule}.

Lemma translate_app (field : Field) (xs ys : list PyValue) :
  HashidIterableLookup.translate field (xs ++ ys)
  = (HashidIterableLookup.translate field xs
     ++ HashidIterableLookup.translate field ys)%list.
Proof. unfold HashidIterableLookup.translate. apply omap_app. Qed.

Lemma translate_cons (field : Field) (x : PyValue) (xs : list PyValue) :
  HashidIterableLookup.translate field (x :: xs)
  = match HashidIterableLookup.decode_element field x with
    | Some n => n :: HashidIterableLookup.translate field xs
    | None => HashidIterableLookup.translate field xs
    end.
Proof. reflexivity. Qed.

Lemma elem_of_translate (field : Field) (vs : list PyValue) (n : Z) :
  n ∈ HashidIterableLookup.translate field vs
  <-> exists v, v ∈ vs /\ HashidIterableLookup.decode_element field v = Some n.
Proof. unfold HashidIterableLookup.translate. apply list_elem_of_omap. Qed.

(** C5 (as amended): the translated integer list of an 'in' filter holds
    the integers of the elements, each decoded on its own and in order;
    an element that fails to decode is dropped from it; with
    allow_int_lookup a raw integer is passed through unchanged; and the
    lookup returns that list unless it is empty, in which case, and only
    then, it raises. *)
Theorem in_lookup_translation (field : Field) (xs ys : list PyValue) (x : PyValue) :
  HashidIterableLookup.translate field (xs ++ x :: ys)
  = (HashidIterableLookup.translate field xs
     ++ option_list (HashidIterableLookup.decode_element field x)
     ++ HashidIterableLookup.translate field ys)%list
  /\ (HashidIterableLookup.decode_element field x = None ->
      HashidIterableLookup.translate field (xs ++ x :: ys)
      = HashidIterableLookup.translate field (xs ++ ys))
  /\ (f_allow_int_lookup field = true ->
      forall n, x = VInt n ->
      HashidIterableLookup.translate field (xs ++ x :: ys)
      = (HashidIterableLookup.translate field xs
         ++ n :: HashidIterableLookup.translate field ys)%list)
  /\ (forall vs,
      (HashidIterableLookup.translate field vs <> [] ->
       HashidIterableLookup.lookup field vs
       = Ok (HashidIterableLookup.translate field vs))
      /\ (raises (HashidIterableLookup.lookup field vs)
          <-> HashidIterableLookup.translate field vs = [])).
Proof.
  assert (Hx : HashidIterableLookup.translate field (xs ++ x :: ys)
    = (HashidIterableLookup.translate field xs
       ++ option_list (HashidIterableLookup.decode_element field x)
       ++ HashidIterableLookup.translate field ys)%list).
  { rewrite translate_app, translate_cons.
    by destruct (HashidIterableLookup.decode_element field x). }
  split; [exact Hx|]. split; [|split].
  - intros Hnone. by rewrite Hx, Hnone, translate_app.
  - intros Hallow n ->. rewrite Hx. simpl. by rewrite Hallow.
  - intros vs. unfold HashidIterableLookup.lookup.
    destruct (HashidIterableLookup.translate field vs) as [|i ids]; simpl.
    + split; [done|]. split; [done|intros _; exact I].
    + split; [done|]. split; [intros []|discriminate].
Qed.
End in_lookup.

(** ** Installing the field on a model class *)

Section contribute.
Context `{HO : HostORM}.

Lemma HashidAutoField_not_HashidField :
  isinstance_of HashidAutoField HashidField = false.
Proof. reflexivity. Qed.

Lemma setattr_lookup (cls : ModelClass) (n : string) (d : HashidDescriptor) :
  cls_attrs (setattr cls n d) !! n = Some d.
Proof. simpl. apply lookup_insert_eq. Qed.

(** [HashidField.contribute_to_class] runs the parent's method and then
    installs the descriptor built from the field's parameters. *)
Lemma HashidField_contribute_to_class_installs
    (self self' : Field) (cls cls' : ModelClass) (name : string)
    (kwargs : gmap string PyValue) :
  f_class self = HashidField ->
  super_contribute_to_class (after HashidField (mro HashidField)) self cls name kwargs
  = Ok (self', cls') ->
  exists cls'',
    HashidField.contribute_to_class self cls name kwargs = Ok (self', cls'')
    /\ cls_attrs cls'' !! f_attname self'
       = Some (mkDescriptor (f_attname self') (f_salt self') (f_min_length self')
                 (f_alphabet self') (f_prefix self')).
Proof.
  intros Hc Hs. eexists. split.
  - unfold HashidField.contribute_to_class. rewrite Hc.
    rewrite py_super_instance by reflexivity. cbn [mbind result_bind].
    rewrite Hs. reflexivity.
  - apply setattr_lookup.
Qed.

(** C2: on a HashidAutoField instance [contribute_to_class] raises
    TypeError at its [super(HashidField, self)], whatever the model
    class, the name and the keyword arguments, before the parent's method
    runs and before any descriptor is installed. *)
Theorem HashidAutoField_contribute_to_class_raises
    (self : Field) (cls : ModelClass) (name : string) (kwargs : gmap string PyValue) :
  f_class self = HashidAutoField ->
  HashidAutoField.contribute_to_class self cls name kwargs
  = Raise (TypeError "super(type, obj): obj must be an instance or subtype of type").
Proof.
  intros Hc. unfold HashidAutoField.contribute_to_class. rewrite Hc. reflexivity.
Qed.

Lemma proxy_contribute_to_class_eq
    (self : Field) (cls : ModelClass) (name : string) (kwargs : gmap string PyValue) :
  PrimaryKeyHashidProxyField.contribute_to_class self cls name kwargs
  = (sup ← py_super PrimaryKeyHashidProxyField (f_class self);
     r ← super_contribute_to_class sup self cls name (<["virtual_only" := VBool true]> kwargs);
     Ok (set_column (ColumnLazyPk (mkLazy None)) r.1,
         setattr r.2 (f_attname r.1) (descriptor_of r.1))).
Proof.
  unfold PrimaryKeyHashidProxyField.contribute_to_class.
  destruct (py_super _ _) as [sup|e]; [|reflexivity]. cbn [mbind result_bind].
  destruct (super_contribute_to_class _ _ _ _ _) as [[self' cls']|e]; reflexivity.
Qed.
End contribute.

Section proxy.
Context `{HO : HostORM}.



End proxy.

(** ** The definitions at work *)

Section runs.
#[local] Existing Instance Reference.hashid_module.
#[local] Existing Instance Reference.host.

Example get_prep_value_of_int :
  HashidFieldMixin.get_prep_value (Reference.field HashidField) (VInt 42) = Ok (VInt 42).
Proof. reflexivity. Qed.

Example to_python_of_int :
  HashidFieldMixin.to_python (Reference.field HashidField) (VInt 42)
  = Ok (VHashid (mkHashid 42 (HashidFieldMixin.config (Reference.field HashidField)))).
Proof. reflexivity. Qed.

Example new_rejects_negative :
  exists msg arg,
    Hashid_new (VInt (-1)) (HashidFieldMixin.config (Reference.field HashidField))
    = Raise (ValueError msg arg).
Proof. by eexists _, _. Qed.

Example HashidField_contribute_to_class_runs :
  exists self' cls',
    HashidField.contribute_to_class (Reference.field HashidField) Reference.model "ref" ∅
    = Ok (self', cls')
    /\ cls_attrs cls' !! "ref"
       = Some (mkDescriptor "ref" (Some "a salt") 7 Reference.alphabet62 None).
Proof. eexists _, _. split; [reflexivity|]. by vm_compute. Qed.

(** C1, the claim as given fails on the empty string: it is neither a
    Hashid nor None, wrapping it raises ValueError and [__set__] stores
    it as it is, yet [get_prep_value] returns None instead of raising. *)
Lemma get_prep_value_accepts_empty_string :
  let self := Reference.field HashidField in
  let d := descriptor_of self in
  let v := VStr "" in
  isinstance_Hashid v = false
  /\ is_None v = false
  /\ (exists msg arg,
        Hashid_new v (HashidFieldMixin.config self) = Raise (ValueError msg arg))
  /\ HashidDescriptor.__set__ d (mkInstance ∅) v
     = Ok (HashidDescriptor.store d (mkInstance ∅) v)
  /\ HashidFieldMixin.get_prep_value self v = Ok VNone
  /\ ~ raises (HashidFieldMixin.get_prep_value self v).
Proof.
  repeat split; try reflexivity.
  - by eexists _, _.
  - intros [].
Qed.

Lemma set_keeps_raw_value_prep_raises_witness :
  let self := Reference.field HashidField in
  let d := descriptor_of self in
  let v := VStr "!" in
  HashidDescriptor.__set__ d (mkInstance ∅) v
  = Ok (HashidDescriptor.store d (mkInstance ∅) v)
  /\ inst_dict (HashidDescriptor.store d (mkInstance ∅) v) !! f_attname self = Some v
  /\ raises (HashidFieldMixin.get_prep_value self v)
  /\ HashidFieldMixin.get_prep_value self v
     = Raise (ValueError
                "'!' value must be a positive integer or a valid Hashids string." VNone).
Proof.
  intros self d v.
  destruct (set_keeps_raw_value_prep_raises
              (Reference.field HashidField) (mkInstance ∅) (VStr "!"))
    as (Hset & Hdict & Hraises & _).
  - reflexivity.
  - reflexivity.
  - discriminate.
  - eexists _, _. reflexivity.
  - split; [exact Hset|]. split; [exact Hdict|]. split; [exact Hraises|].
    reflexivity.
Defined.

Lemma HashidAutoField_contribute_to_class_raises_witness :
  HashidAutoField.contribute_to_class
    (Reference.field HashidAutoField) Reference.model "id" ∅
  = Raise (TypeError "super(type, obj): obj must be an instance or subtype of type").
Proof.
  apply (HashidAutoField_contribute_to_class_raises
           (Reference.field HashidAutoField) Reference.model "id" ∅).
  reflexivity.
Defined.

Lemma get_lookup_cases_witness :
  let self := Reference.field HashidField in
  HashidFieldMixin.get_lookup self "icontains" = Ok (Some HashidLookup)
  /\ HashidFieldMixin.get_lookup self "in" = Ok (Some HashidIterableLookup)
  /\ HashidFieldMixin.get_lookup self "isnull" = Ok (Some (HostLookup "isnull"))
  /\ HashidFieldMixin.get_lookup self "gt" = Ok None.
Proof.
  intros self. split; [|split; [|split]].
  - apply (proj1 (get_lookup_cases self "icontains")).
    apply (bool_decide_unpack _). by vm_compute.
  - apply (proj1 (proj2 (get_lookup_cases self "in"))). reflexivity.
  - refine (eq_trans
      (proj2 (proj1 (proj2 (proj2 (get_lookup_cases self "isnull"))) _) _) _);
      reflexivity.
  - apply (proj2 (proj2 (proj2 (get_lookup_cases self "gt")))).
    apply (bool_decide_unpack _). by vm_compute.
Defined.


(** C5, the claim as given fails on a list none of whose elements
    decodes: the element is dropped, the translated list is empty and the
    lookup raises. *)
Lemma in_lookup_raises_when_nothing_decodes :
  let field := Reference.field HashidField in
  HashidIterableLookup.decode_element field (VStr "!") = None
  /\ HashidIterableLookup.translate field [VStr "!"] = []
  /\ raises (HashidIterableLookup.lookup field [VStr "!"]).
Proof. repeat split. Qed.

Lemma in_lookup_translation_witness :
  let field := Reference.field HashidField in
  HashidIterableLookup.translate field [VStr "b"; VStr "!"; VStr "cb"]
  = HashidIterableLookup.translate field [VStr "b"; VStr "cb"]
  /\ HashidIterableLookup.lookup field [VStr "b"; VStr "!"; VStr "cb"] = Ok [1; 125].
Proof.
  intros field. split.
  - apply (proj1 (proj2 (in_lookup_translation field [VStr "b"] [VStr "cb"] (VStr "!")))).
    reflexivity.
  - refine (eq_trans
      (proj1 (proj2 (proj2 (proj2
         (in_lookup_translation field [] [] VNone)))
         [VStr "b"; VStr "!"; VStr "cb"]) _) _).
    + vm_compute. discriminate.
    + reflexivity.
Defined.

Lemma to_python_cases_witness :
  let self := Reference.field HashidField in
  HashidFieldMixin.to_python self (VHashid (mkHashid 5 (HashidFieldMixin.config self)))
  = Ok (VHashid (mkHashid 5 (HashidFieldMixin.config self)))
  /\ HashidFieldMixin.to_python self VNone = Ok VNone
  /\ HashidFieldMixin.to_python self (VInt 5)
     = Ok (VHashid (mkHashid 5 (HashidFieldMixin.config self)))
  /\ exists msg params,
       HashidFieldMixin.to_python self (VStr "!")
       = Raise (ValidationError msg "invalid" params).
Proof.
  intros self. split; [|split; [|split]].
  - apply (proj1 (to_python_cases self _)). reflexivity.
  - apply (proj1 (proj2 (to_python_cases self VNone))). reflexivity.
  - apply (proj1 (proj1 (proj2 (proj2 (to_python_cases self (VInt 5)))) eq_refl eq_refl)).
    reflexivity.
  - destruct (proj2 (proj1 (proj2 (proj2 (to_python_cases self (VStr "!"))))
                       eq_refl eq_refl)) as [msg Hmsg].
    + eexists _, _. reflexivity.
    + eauto.
Defined.

Lemma check_alphabet_min_length_witness :
  let short :=
    mkField HashidField (Some "a salt") 7 "abcdefghijklmno" None false ∅ None "" None None in
  (HashidFieldMixin._check_alphabet_min_length short = [E001]
   /\ exists msgs, HashidFieldMixin.check short ∅ = Ok msgs /\ E001 ∈ msgs)
  /\ HashidFieldMixin._check_alphabet_min_length (Reference.field HashidField) = [].
Proof.
  intros short. split.
  - destruct (proj1 (check_alphabet_min_length short)) as (Hc & _ & _ & Hchk).
    { by vm_compute. }
    split; [exact Hc|]. apply (Hchk ∅ []); reflexivity.
  - apply (proj2 (check_alphabet_min_length (Reference.field HashidField))).
    by vm_compute.
Defined.

Lemma check_salt_is_set_witness :
  let unsalted :=
    mkField HashidField (Some "") 7 Reference.alphabet62 None false ∅ None "" None None in
  (HashidFieldMixin._check_salt_is_set unsalted = [W001]
   /\ exists msgs, HashidFieldMixin.check unsalted ∅ = Ok msgs /\ W001 ∈ msgs)
  /\ HashidFieldMixin._check_salt_is_set (Reference.field HashidField) = [].
Proof.
  intros unsalted. split.
  - destruct (proj1 (check_salt_is_set unsalted)) as (Hc & _ & _ & Hchk).
    { by right. }
    split; [exact Hc|]. apply (Hchk ∅ []); reflexivity.
  - apply (proj2 (check_salt_is_set (Reference.field HashidField)) "a salt").
    + reflexivity.
    + discriminate.
Defined.
End runs.

(** * Further properties of the descriptor and the field *)

Section descriptor_more.
Context `{HM : HashidModule}.


(** An assignment that returns changes the instance's dictionary at the
    descriptor's name only, and what it leaves there is the assigned value
    itself or that value wrapped by the constructor. *)
Theorem set_changes_only_its_name
    (d : HashidDescriptor) (inst inst' : Instance) (v : PyValue) :
  HashidDescriptor.__set__ d inst v = Ok inst' ->
  (forall k, k <> d_name d -> inst_dict inst' !! k = inst_dict inst !! k)
  /\ (inst_dict inst' !! d_name d = Some v
      \/ exists h, Hashid_new v (HashidDescriptor.config d) = Ok h
                   /\ inst_dict inst' !! d_name d = Some (VHashid h)).
Proof.
  unfold HashidDescriptor.__set__, HashidDescriptor.store.
  destruct (isinstance_Hashid v || is_None v).
  - intros [= <-]. simpl. split.
    + intros k Hk. by rewrite lookup_insert_ne.
    + left. apply lookup_insert_eq.
  - destruct (Hashid_new v _) as [h|e] eqn:Hnew.
    + intros [= <-]. simpl. split.
      * intros k Hk. by rewrite lookup_insert_ne.
      * right. exists h. split; [done|apply lookup_insert_eq].
    + destruct (is_ValueError e); [|discriminate].
      intros [= <-]. simpl. split.
      * intros k Hk. by rewrite lookup_insert_ne.
      * left. apply lookup_insert_eq.
Qed.

(** An assignment raises exactly when the value is neither a Hashid nor
    None and the constructor raises something other than ValueError, which
    is then passed on unchanged; so it never raises ValueError. *)
Theorem set_raises_iff (d : HashidDescriptor) (inst : Instance) (v : PyValue) (e : exn) :
  HashidDescriptor.__set__ d inst v = Raise e
  <-> isinstance_Hashid v = false /\ is_None v = false
      /\ Hashid_new v (HashidDescriptor.config d) = Raise e
      /\ is_ValueError e = false.
Proof.
  unfold HashidDescriptor.__set__. split.
  - destruct (isinstance_Hashid v); [discriminate|].
    destruct (is_None v); [discriminate|]. simpl.
    destruct (Hashid_new v _) as [h|e']; [discriminate|].
    destruct (is_ValueError e') eqn:He; [discriminate|].
    by intros [= <-].
  - intros (-> & -> & -> & ->). reflexivity.
Qed.

(** A read that follows an assignment runs the constructor on whatever the
    assignment stored. *)
Theorem get_after_set (d : HashidDescriptor) (inst inst' : Instance) (v : PyValue) :
  HashidDescriptor.__set__ d inst v = Ok inst' ->
  exists w,
    inst_dict inst' !! d_name d = Some w
    /\ HashidDescriptor.__get__ d (Some inst')
       = (h ← Hashid_new w (HashidDescriptor.config d); Ok (VHashid h)).
Proof.
  intros Hset.
  assert (Hw : exists w, inst' = HashidDescriptor.store d inst w).
  { revert Hset. unfold HashidDescriptor.__set__.
    destruct (isinstance_Hashid v || is_None v); [intros [= <-]; eauto|].
    destruct (Hashid_new v _) as [h|e]; [intros [= <-]; eauto|].
    destruct (is_ValueError e); [intros [= <-]; eauto|discriminate]. }
  destruct Hw as [w ->]. exists w.
  assert (Hl : inst_dict (HashidDescriptor.store d inst w) !! d_name d = Some w)
    by apply lookup_insert_eq.
  split; [done|]. unfold HashidDescriptor.__get__. by rewrite Hl.
Qed.

(** A value the constructor rejects with ValueError is accepted by the
    assignment without a word, and the next read of the attribute raises
    that ValueError. *)
Theorem get_after_set_of_rejected_value
    (d : HashidDescriptor) (inst : Instance) (v : PyValue) (e : exn) :
  isinstance_Hashid v = false ->
  is_None v = false ->
  is_ValueError e = true ->
  Hashid_new v (HashidDescriptor.config d) = Raise e ->
  exists inst',
    HashidDescriptor.__set__ d inst v = Ok inst'
    /\ HashidDescriptor.__get__ d (Some inst') = Raise e.
Proof.
  intros Hh Hn He Hnew. eexists. split.
  - unfold HashidDescriptor.__set__. by rewrite Hh, Hn, Hnew, He.
  - unfold HashidDescriptor.__get__, HashidDescriptor.store. simpl.
    by rewrite lookup_insert_eq, Hnew.
Qed.
End descriptor_more.

Section conversion_more.
Context `{HM : HashidModule} `{HO : HostORM}.

Lemma to_python_Ok_cases (self : Field) (v w : PyValue) :
  HashidFieldMixin.to_python self v = Ok w ->
  (isinstance_Hashid v = true /\ w = v)
  \/ (v = VNone /\ w = VNone)
  \/ (isinstance_Hashid v = false /\ is_None v = false
      /\ exists h, Hashid_new v (HashidFieldMixin.config self) = Ok h /\ w = VHashid h).
Proof.
  unfold HashidFieldMixin.to_python, HashidFieldMixin.encode_id.
  destruct (isinstance_Hashid v) eqn:Hh; [intros [= <-]; by left|].
  destruct (is_None v) eqn:Hn.
  { intros [= <-]. right. left. by destruct v. }
  destruct (Hashid_new v _) as [h|e] eqn:Hnew.
  - intros [= <-]. right. right. eauto.
  - destruct (is_ValueError e); [|discriminate].
    destruct (error_messages_invalid self) as [m ->]. discriminate.
Qed.

(** [to_python] is idempotent: what it returns it returns unchanged when
    given it again. *)
Theorem to_python_idempotent (self : Field) (v w : PyValue) :
  HashidFieldMixin.to_python self v = Ok w ->
  HashidFieldMixin.to_python self w = Ok w.
Proof.
  intros Hv.
  destruct (to_python_Ok_cases self v w Hv)
    as [[Hh ->]|[[-> ->]|(_ & _ & h & _ & ->)]].
  - unfold HashidFieldMixin.to_python. by rewrite Hh.
  - reflexivity.
  - reflexivity.
Qed.

(** Except on the empty string, preparing a value for the database gives
    what preparing its [to_python] form gives. *)
Theorem get_prep_value_of_to_python (self : Field) (v w : PyValue) :
  v <> VStr "" ->
  HashidFieldMixin.to_python self v = Ok w ->
  HashidFieldMixin.get_prep_value self v = HashidFieldMixin.get_prep_value self w.
Proof.
  intros He Hv.
  destruct (to_python_Ok_cases self v w Hv)
    as [[Hh ->]|[[-> ->]|(Hh & Hn & h & Hnew & ->)]]; [done..|].
  unfold HashidFieldMixin.get_prep_value at 2. rewrite eq_empty_str_Hashid. simpl.
  unfold HashidFieldMixin.get_prep_value, HashidFieldMixin.encode_id.
  rewrite Hn. simpl.
  destruct (eq_empty_str v) eqn:Hv'.
  { apply eq_empty_str_true in Hv'. contradiction. }
  destruct v; try discriminate; by rewrite Hnew.
Qed.

(** [get_prep_value] returns None for None and for the empty string and
    for nothing else; whatever else it returns is an integer. *)
Theorem get_prep_value_result (self : Field) (v : PyValue) :
  (HashidFieldMixin.get_prep_value self v = Ok VNone <-> v = VNone \/ v = VStr "")
  /\ (forall w, HashidFieldMixin.get_prep_value self v = Ok w ->
                w = VNone \/ exists n, w = VInt n).
Proof.
  assert (Hcases : forall w, HashidFieldMixin.get_prep_value self v = Ok w ->
            ((v = VNone \/ v = VStr "") /\ w = VNone) \/ exists n, w = VInt n).
  { intros w. unfold HashidFieldMixin.get_prep_value, HashidFieldMixin.encode_id.
    destruct (is_None v) eqn:Hn.
    { intros [= <-]. left. split; [left; by destruct v|done]. }
    simpl. destruct (eq_empty_str v) eqn:Hv.
    { intros [= <-]. left. apply eq_empty_str_true in Hv. auto. }
    destruct v as [| b | n | s | h]; try discriminate.
    - destruct (Hashid_new _ _) as [h|e]; [intros [= <-]; eauto|].
      destruct (is_ValueError e); [|discriminate].
      destruct (error_messages_invalid self) as [m ->]. simpl.
      destruct (format_message m _); discriminate.
    - destruct (Hashid_new _ _) as [h|e]; [intros [= <-]; eauto|].
      destruct (is_ValueError e); [|discriminate].
      destruct (error_messages_invalid self) as [m ->]. simpl.
      destruct (format_message m _); discriminate.
    - destruct (Hashid_new _ _) as [h|e]; [intros [= <-]; eauto|].
      destruct (is_ValueError e); [|discriminate].
      destruct (error_messages_invalid self) as [m ->]. simpl.
      destruct (format_message m _); discriminate.
    - intros [= <-]. eauto. }
  split.
  - split.
    + intros Hv. destruct (Hcases _ Hv) as [[? _]|[n [=]]]. done.
    + intros [->| ->]; reflexivity.
  - intros w Hw. destruct (Hcases _ Hw) as [[_ ->]|?]; auto.
Qed.

(** The two conversions signal a rejected value differently.  [to_python]
    never raises ValueError.  When the constructor rejects with ValueError
    a value that is neither a Hashid, None nor the empty string, what
    [get_prep_value] raises is decided by the field's 'invalid' message: a
    ValueError whose text is that message filled in with the value, or,
    when filling it in raises, the exception of the filling. *)
Theorem conversion_exception_kinds (self : Field) (v : PyValue) :
  (forall msg arg, HashidFieldMixin.to_python self v <> Raise (ValueError msg arg))
  /\ (forall msg arg,
        isinstance_Hashid v = false -> is_None v = false -> v <> VStr "" ->
        Hashid_new v (HashidFieldMixin.config self) = Raise (ValueError msg arg) ->
        exists m,
          HashidFieldMixin.error_message self "invalid" = Ok m
          /\ (forall text,
                format_message m {[ "value" := v ]} = Ok text ->
                HashidFieldMixin.get_prep_value self v = Raise (ValueError text VNone))
          /\ (forall e,
                format_message m {[ "value" := v ]} = Raise e ->
                HashidFieldMixin.get_prep_value self v = Raise e)).
Proof.
  split.
  - destruct (error_messages_invalid self) as [m Hm].
    intros msg arg. unfold HashidFieldMixin.to_python, HashidFieldMixin.encode_id.
    destruct (isinstance_Hashid v); [discriminate|].
    destruct (is_None v); [discriminate|].
    destruct (Hashid_new v _) as [h|e]; [discriminate|].
    destruct e; simpl; rewrite ?Hm; discriminate.
  - intros msg arg Hh Hn Hne Hnew.
    destruct (get_prep_value_rejected self v (ValueError msg arg) Hh Hn Hne eq_refl Hnew)
      as (m & Hm & Hprep).
    exists m. split; [done|]. rewrite Hprep.
    split; [intros text ->|intros e ->]; reflexivity.
Qed.

(** An exception of the constructor that is not a ValueError passes
    through both conversions unchanged. *)
Theorem conversion_passes_other_exceptions (self : Field) (v : PyValue) (e : exn) :
  isinstance_Hashid v = false ->
  is_None v = false ->
  is_ValueError e = false ->
  Hashid_new v (HashidFieldMixin.config self) = Raise e ->
  HashidFieldMixin.to_python self v = Raise e
  /\ (v <> VStr "" -> HashidFieldMixin.get_prep_value self v = Raise e).
Proof.
  intros Hh Hn He Hnew. split.
  - unfold HashidFieldMixin.to_python, HashidFieldMixin.encode_id.
    by rewrite Hh, Hn, Hnew, He.
  - intros Hne. unfold HashidFieldMixin.get_prep_value, HashidFieldMixin.encode_id.
    rewrite Hn. simpl. destruct (eq_empty_str v) eqn:Hv.
    { apply eq_empty_str_true in Hv. contradiction. }
    destruct v; try discriminate; by rewrite Hnew, He.
Qed.

(** Assignment through the field's descriptor normalises a value as
    [to_python] does: whenever [to_python] returns, the assignment stores
    exactly what it returned. *)
Theorem set_stores_to_python (self : Field) (inst : Instance) (v w : PyValue) :
  HashidFieldMixin.to_python self v = Ok w ->
  HashidDescriptor.__set__ (descriptor_of self) inst v
  = Ok (HashidDescriptor.store (descriptor_of self) inst w).
Proof.
  intros Hv. unfold HashidDescriptor.__set__.
  destruct (to_python_Ok_cases self v w Hv)
    as [[Hh ->]|[[-> ->]|(Hh & Hn & h & Hnew & ->)]].
  - by rewrite Hh.
  - reflexivity.
  - rewrite Hh, Hn. simpl. by rewrite descriptor_of_config, Hnew.
Qed.
End conversion_more.

Section check_more.
Context `{HM : HashidModule} `{HO : HostORM}.

(** [check] keeps the parent's messages, in their order, in front of its
    own: it adds nothing to them for a field with an alphabet of 16
    characters or more and a non-empty salt, adds E001 followed by W001
    when both are wrong, and passes on an exception of the parent's
    check. *)
Theorem check_appends_to_parent (self : Field) (kwargs : gmap string PyValue) :
  isinstance_of (f_class self) HashidFieldMixin = true ->
  let parent := super_check (after HashidFieldMixin (mro (f_class self))) self kwargs in
  (forall e, parent = Raise e -> HashidFieldMixin.check self kwargs = Raise e)
  /\ (forall errors, parent = Ok errors ->
      (exists extra,
          HashidFieldMixin.check self kwargs = Ok (errors ++ extra)%list
          /\ (length extra <= 2)%nat
          /\ forall m, m ∈ extra -> m = E001 \/ m = W001)
      /\ (forall salt,
            16 <= Z.of_nat (String.length (f_alphabet self)) ->
            f_salt self = Some salt -> salt <> "" ->
            HashidFieldMixin.check self kwargs = Ok errors)
      /\ (Z.of_nat (String.length (f_alphabet self)) < 16 ->
          f_salt self = None \/ f_salt self = Some "" ->
          HashidFieldMixin.check self kwargs = Ok (errors ++ [E001; W001])%list)).
Proof.
  intros Hi parent. subst parent. split.
  - intros e He. unfold HashidFieldMixin.check.
    rewrite (py_super_instance _ _ Hi). cbn [mbind result_bind]. by rewrite He.
  - intros errors Hs. rewrite (check_eq self kwargs errors Hi Hs).
    split; [|split].
    + eexists. split; [reflexivity|]. split.
      * rewrite length_app.
        unfold HashidFieldMixin._check_alphabet_min_length,
          HashidFieldMixin._check_salt_is_set.
        destruct (_ <? 16); destruct (_ || _); simpl; lia.
      * intros m [Hm|Hm]%elem_of_app.
        -- left. by apply alphabet_check_ids in Hm.
        -- right. by apply salt_check_ids in Hm.
    + intros salt Hlen Hsalt Hne.
      unfold HashidFieldMixin._check_alphabet_min_length,
        HashidFieldMixin._check_salt_is_set.
      rewrite (proj2 (Z.ltb_ge _ _) Hlen), Hsalt.
      rewrite bool_decide_eq_false_2 by discriminate.
      rewrite bool_decide_eq_false_2 by congruence.
      simpl. by rewrite app_nil_r.
    + intros Hlen Hsalt.
      unfold HashidFieldMixin._check_alphabet_min_length,
        HashidFieldMixin._check_salt_is_set.
      rewrite (proj2 (Z.ltb_lt _ _) Hlen).
      by destruct Hsalt as [Hn|He]; [rewrite Hn|rewrite He].
Qed.
End check_more.

Section contribute_more.
Context `{HM : HashidModule} `{HO : HostORM}.

(** [HashidField.contribute_to_class] hands back the field as the parent's
    method left it and changes the class the parent returned at one
    attribute only, the field's attribute name; an exception of the
    parent's method is passed on and nothing is installed. *)
Theorem HashidField_contribute_to_class_frame
    (self : Field) (cls : ModelClass) (name : string) (kwargs : gmap string PyValue) :
  f_class self = HashidField ->
  let parent :=
    super_contribute_to_class (after HashidField (mro HashidField)) self cls name kwargs in
  (forall e, parent = Raise e ->
     HashidField.contribute_to_class self cls name kwargs = Raise e)
  /\ (forall self' cls', parent = Ok (self', cls') ->
      exists cls'',
        HashidField.contribute_to_class self cls name kwargs = Ok (self', cls'')
        /\ cls_name cls'' = cls_name cls'
        /\ cls_meta_pk cls'' = cls_meta_pk cls'
        /\ forall k, k <> f_attname self' -> cls_attrs cls'' !! k = cls_attrs cls' !! k).
Proof.
  intros Hc parent. subst parent. unfold HashidField.contribute_to_class.
  rewrite Hc, py_super_instance by reflexivity. cbn [mbind result_bind].
  split.
  - intros e ->. reflexivity.
  - intros self' cls' ->. eexists. split; [reflexivity|].
    split; [reflexivity|]. split; [reflexivity|].
    intros k Hk. simpl. by rewrite lookup_insert_ne.
Qed.

(** The descriptor that [HashidField] or [PrimaryKeyHashidProxyField]
    installs is found on the class under the field's attribute name, and an
    assignment through it stores, under that name, what [to_python] of the
    installed field returns for the assigned value. *)
Theorem contribute_to_class_then_set
    (self self' : Field) (cls cls' : ModelClass) (name : string)
    (kwargs : gmap string PyValue) :
  HashidField.contribute_to_class self cls name kwargs = Ok (self', cls')
  \/ PrimaryKeyHashidProxyField.contribute_to_class self cls name kwargs = Ok (self', cls') ->
  exists d,
    cls_attrs cls' !! f_attname self' = Some d
    /\ d_name d = f_attname self'
    /\ forall inst v w,
         HashidFieldMixin.to_python self' v = Ok w ->
         exists inst',
           HashidDescriptor.__set__ d inst v = Ok inst'
           /\ inst_dict inst' !! f_attname self' = Some w.
Proof.
  intros Hc.
  assert (Hd : exists self1 cls1,
    cls' = setattr cls1 (f_attname self1) (descriptor_of self1)
    /\ f_attname self' = f_attname self1
    /\ HashidFieldMixin.config self' = HashidFieldMixin.config self1).
  { destruct Hc as [Hc|Hc].
    - unfold HashidField.contribute_to_class in Hc.
      destruct (py_super _ _) as [sup|e]; [|discriminate].
      cbn [mbind result_bind] in Hc.
      destruct (super_contribute_to_class _ _ _ _ _) as [[self1 cls1]|e]; [|discriminate].
      injection Hc as <- <-. by exists self1, cls1.
    - rewrite proxy_contribute_to_class_eq in Hc.
      destruct (py_super _ _) as [sup|e]; [|discriminate].
      cbn [mbind result_bind] in Hc.
      destruct (super_contribute_to_class _ _ _ _ _) as [[self1 cls1]|e]; [|discriminate].
      injection Hc as <- <-. by exists self1, cls1. }
  destruct Hd as (self1 & cls1 & -> & Hatt & Hcfg).
  exists (descriptor_of self1). rewrite Hatt. split; [apply setattr_lookup|].
  split; [reflexivity|].
  intros inst v w Hv.
  assert (Hv1 : HashidFieldMixin.to_python self1 v = Ok w).
  { revert Hv. unfold HashidFieldMixin.to_python, HashidFieldMixin.encode_id,
      HashidFieldMixin.error_message, HashidFieldMixin.error_messages.
    rewrite Hcfg.
    destruct (isinstance_Hashid v); [done|]. destruct (is_None v); [done|].
    destruct (Hashid_new v _) as [h|e]; [done|].
    destruct (is_ValueError e); [|done].
    destruct (_ !! "invalid"); discriminate. }
  exists (HashidDescriptor.store (descriptor_of self1) inst w).
  split; [|apply (set_stores (descriptor_of self1))].
  unfold HashidDescriptor.__set__.
  destruct (to_python_Ok_cases self1 v w Hv1)
    as [[Hh ->]|[[-> ->]|(Hh & Hn & h & Hnew & ->)]].
  - by rewrite Hh.
  - reflexivity.
  - rewrite Hh, Hn. simpl. by rewrite descriptor_of_config, Hnew.
Qed.
End contribute_more.

(** ** Construction and deconstruction *)

Section construction.

Lemma init_super_kwargs (salt min_length alphabet allow_int_lookup prefix : PyValue)
    (args : list PyValue) (kwargs : gmap string PyValue) :
  c_super_kwargs
    (HashidFieldMixin_init.__init__ salt min_length alphabet allow_int_lookup prefix
       args kwargs)
  = delete "allow_int" kwargs.
Proof.
  unfold HashidFieldMixin_init.__init__.
  destruct (kwargs !! "allow_int") eqn:Ha; [reflexivity|].
  simpl. symmetry. by apply delete_id.
Qed.

(** [__init__] never hands the deprecated [allow_int] keyword to the
    parent and hands every other keyword on untouched; when [allow_int] is
    given its value becomes [allow_int_lookup], whatever was passed for
    that parameter, and exactly one warning is issued, the
    DeprecationWarning that names the new parameter; no warning is issued
    otherwise. *)
Theorem init_allow_int (salt min_length alphabet allow_int_lookup prefix : PyValue)
    (args : list PyValue) (kwargs : gmap string PyValue) :
  let c := HashidFieldMixin_init.__init__ salt min_length alphabet allow_int_lookup
             prefix args kwargs in
  c_super_kwargs c !! "allow_int" = None
  /\ (forall k, k <> "allow_int" -> c_super_kwargs c !! k = kwargs !! k)
  /\ c_allow_int_lookup c = default allow_int_lookup (kwargs !! "allow_int")
  /\ (forall a, kwargs !! "allow_int" = Some a ->
        c_allow_int_lookup c = a
        /\ c_warnings c
           = [("DeprecationWarning",
               "The 'allow_int' parameter was renamed to 'allow_int_lookup'.")])
  /\ (kwargs !! "allow_int" = None ->
        c_allow_int_lookup c = allow_int_lookup /\ c_warnings c = [])
  /\ (c_salt c, c_min_length c, c_alphabet c, c_prefix c, c_super_args c)
     = (salt, min_length, alphabet, prefix, args).
Proof.
  intros c. subst c. rewrite init_super_kwargs.
  split; [apply lookup_delete_eq|].
  split; [intros k Hk; by apply lookup_delete_ne|].
  unfold HashidFieldMixin_init.__init__.
  destruct (kwargs !! "allow_int") as [a|]; simpl.
  - split; [done|]. split; [by intros ? [= <-]|]. split; [discriminate|done].
  - split; [done|]. split; [discriminate|]. split; done.
Qed.

Lemma bind_parameter_Ok (i : nat) (name : string) (d : PyValue)
    (args : list PyValue) (kwargs : gmap string PyValue) :
  (is_Some (args !! i) -> kwargs !! name = None) ->
  HashidFieldMixin_init.bind_parameter i name d args kwargs
  = Ok (default (default d (kwargs !! name)) (args !! i)).
Proof.
  intros Hdup. unfold HashidFieldMixin_init.bind_parameter.
  destruct (args !! i) as [v|]; [|reflexivity].
  by rewrite Hdup.
Qed.

Lemma bind_parameter_Raise (i : nat) (name : string) (d : PyValue)
    (args : list PyValue) (kwargs : gmap string PyValue) :
  is_Some (args !! i) -> is_Some (kwargs !! name) ->
  exists msg,
    HashidFieldMixin_init.bind_parameter i name d args kwargs = Raise (TypeError msg).
Proof.
  intros [v Hv] [w Hw]. unfold HashidFieldMixin_init.bind_parameter.
  rewrite Hv, Hw. eauto.
Qed.

Lemma bind_parameter_cases (i : nat) (name : string) (d : PyValue)
    (args : list PyValue) (kwargs : gmap string PyValue) :
  (exists v, HashidFieldMixin_init.bind_parameter i name d args kwargs = Ok v
             /\ (is_Some (args !! i) -> kwargs !! name = None))
  \/ (exists msg,
        HashidFieldMixin_init.bind_parameter i name d args kwargs = Raise (TypeError msg)
        /\ is_Some (args !! i) /\ is_Some (kwargs !! name)).
Proof.
  unfold HashidFieldMixin_init.bind_parameter.
  destruct (args !! i) as [v|] eqn:Hv.
  - destruct (kwargs !! name) as [w|] eqn:Hw.
    + right. eexists. eauto.
    + left. eauto.
  - left. eexists. split; [reflexivity|]. by intros [? [=]].
Qed.

(** A call of the class fails in the binding of the constructor's
    parameters exactly when one of the five named parameters is given both
    by position and by keyword, and the failure is a TypeError. *)
Theorem call_raises_iff (D : Defaults) (args : list PyValue)
    (kwargs : gmap string PyValue) :
  (raises (HashidFieldMixin_init.call D args kwargs)
   <-> exists i name,
         HashidFieldMixin_init.parameters !! i = Some name
         /\ is_Some (args !! i) /\ is_Some (kwargs !! name))
  /\ forall e, HashidFieldMixin_init.call D args kwargs = Raise e ->
               exists msg, e = TypeError msg.
Proof.
  unfold HashidFieldMixin_init.call.
  destruct (bind_parameter_cases 0 "salt" (HASHID_FIELD_SALT D) args kwargs)
    as [(v0 & -> & H0)|(m & -> & Ha & Hk)];
    [|split; [split; [intros _; by exists 0%nat, "salt"|done]|intros e [= <-]; eauto]].
  cbn [mbind result_bind].
  destruct (bind_parameter_cases 1 "min_length" (HASHID_FIELD_MIN_LENGTH D) args kwargs)
    as [(v1 & -> & H1)|(m & -> & Ha & Hk)];
    [|split; [split; [intros _; by exists 1%nat, "min_length"|done]|intros e [= <-]; eauto]].
  cbn [mbind result_bind].
  destruct (bind_parameter_cases 2 "alphabet" (Hashids_ALPHABET D) args kwargs)
    as [(v2 & -> & H2)|(m & -> & Ha & Hk)];
    [|split; [split; [intros _; by exists 2%nat, "alphabet"|done]|intros e [= <-]; eauto]].
  cbn [mbind result_bind].
  destruct (bind_parameter_cases 3 "allow_int_lookup"
              (HASHID_FIELD_ALLOW_INT_LOOKUP D) args kwargs)
    as [(v3 & -> & H3)|(m & -> & Ha & Hk)];
    [|split; [split; [intros _; by exists 3%nat, "allow_int_lookup"|done]
             |intros e [= <-]; eauto]].
  cbn [mbind result_bind].
  destruct (bind_parameter_cases 4 "prefix" VNone args kwargs)
    as [(v4 & -> & H4)|(m & -> & Ha & Hk)];
    [|split; [split; [intros _; by exists 4%nat, "prefix"|done]|intros e [= <-]; eauto]].
  cbn [mbind result_bind]. split; [|discriminate].
  split; [intros []|].
  intros (i & name & Hp & Ha & [w Hk]).
  unfold HashidFieldMixin_init.parameters in Hp.
  destruct i as [|[|[|[|[|i]]]]]; simpl in Hp; try discriminate;
    injection Hp as <-.
  - rewrite (H0 Ha) in Hk. discriminate.
  - rewrite (H1 Ha) in Hk. discriminate.
  - rewrite (H2 Ha) in Hk. discriminate.
  - rewrite (H3 Ha) in Hk. discriminate.
  - rewrite (H4 Ha) in Hk. discriminate.
Qed.

Lemma call_Ok_inv (D : Defaults) (args : list PyValue) (kwargs : gmap string PyValue)
    (c : Constructed) :
  HashidFieldMixin_init.call D args kwargs = Ok c ->
  exists salt min_length alphabet allow_int_lookup prefix,
    HashidFieldMixin_init.bind_parameter 0 "salt" (HASHID_FIELD_SALT D) args kwargs
    = Ok salt
    /\ HashidFieldMixin_init.bind_parameter 1 "min_length" (HASHID_FIELD_MIN_LENGTH D)
         args kwargs = Ok min_length
    /\ HashidFieldMixin_init.bind_parameter 2 "alphabet" (Hashids_ALPHABET D)
         args kwargs = Ok alphabet
    /\ HashidFieldMixin_init.bind_parameter 3 "allow_int_lookup"
         (HASHID_FIELD_ALLOW_INT_LOOKUP D) args kwargs = Ok allow_int_lookup
    /\ HashidFieldMixin_init.bind_parameter 4 "prefix" VNone args kwargs = Ok prefix
    /\ c = HashidFieldMixin_init.__init__ salt min_length alphabet allow_int_lookup
             prefix (drop 5 args)
             (foldr delete kwargs HashidFieldMixin_init.parameters).
Proof.
  unfold HashidFieldMixin_init.call.
  destruct (HashidFieldMixin_init.bind_parameter 0 _ _ _ _) as [v0|]; [|discriminate].
  destruct (HashidFieldMixin_init.bind_parameter 1 _ _ _ _) as [v1|]; [|discriminate].
  destruct (HashidFieldMixin_init.bind_parameter 2 _ _ _ _) as [v2|]; [|discriminate].
  destruct (HashidFieldMixin_init.bind_parameter 3 _ _ _ _) as [v3|]; [|discriminate].
  destruct (HashidFieldMixin_init.bind_parameter 4 _ _ _ _) as [v4|]; [|discriminate].
  cbn [mbind result_bind]. intros [= <-]. by exists v0, v1, v2, v3, v4.
Qed.

(** Of a call that binds, the parent's [__init__] receives the positional
    arguments after the fifth and the keywords other than the five
    parameter names and [allow_int], each with the value the caller gave;
    and a keyword [allow_int] decides [allow_int_lookup] even when that
    parameter is given as well. *)
Theorem call_forwards (D : Defaults) (args : list PyValue)
    (kwargs : gmap string PyValue) (c : Constructed) :
  HashidFieldMixin_init.call D args kwargs = Ok c ->
  c_super_args c = drop 5 args
  /\ (forall k, k ∈ "allow_int" :: HashidFieldMixin_init.parameters ->
                c_super_kwargs c !! k = None)
  /\ (forall k, k ∉ "allow_int" :: HashidFieldMixin_init.parameters ->
                c_super_kwargs c !! k = kwargs !! k)
  /\ (forall a, kwargs !! "allow_int" = Some a -> c_allow_int_lookup c = a).
Proof.
  intros (salt & ml & al & ail & pre & _ & _ & _ & _ & _ & ->)%call_Ok_inv.
  rewrite init_super_kwargs.
  assert (Hna : "allow_int" ∉ HashidFieldMixin_init.parameters).
  { unfold HashidFieldMixin_init.parameters.
    rewrite !not_elem_of_cons. repeat split; try discriminate. apply not_elem_of_nil. }
  split; [|split; [|split]].
  - unfold HashidFieldMixin_init.__init__. by destruct (_ !! "allow_int").
  - intros k [->|Hk]%elem_of_cons; [apply lookup_delete_eq|].
    destruct (decide (k = "allow_int")) as [->|Hne]; [apply lookup_delete_eq|].
    rewrite lookup_delete_ne by done. by apply lookup_foldr_delete.
  - intros k [Hne Hk]%not_elem_of_cons.
    rewrite lookup_delete_ne by done. by apply lookup_foldr_delete_not_elem_of.
  - intros a Ha. unfold HashidFieldMixin_init.__init__.
    by rewrite (lookup_foldr_delete_not_elem_of _ _ _ Hna), Ha.
Qed.
End construction.

Section deconstruction.
Variable super_deconstruct :
  list PyClass -> Field ->
  result (string * string * list PyValue * gmap string PyValue).

Lemma deconstruct_eq (self : Field) (name path : string) (args : list PyValue)
    (kwargs : gmap string PyValue) :
  isinstance_of (f_class self) HashidFieldMixin = true ->
  super_deconstruct (after HashidFieldMixin (mro (f_class self))) self
  = Ok (name, path, args, kwargs) ->
  HashidFieldMixin_init.deconstruct super_deconstruct self
  = Ok (name, path, args,
        <["prefix" := of_prefix (f_prefix self)]>
          (<["alphabet" := VStr (f_alphabet self)]>
             (<["min_length" := VInt (f_min_length self)]> kwargs))).
Proof.
  intros Hi Hs. unfold HashidFieldMixin_init.deconstruct.
  rewrite (py_super_instance _ _ Hi). cbn [mbind result_bind]. by rewrite Hs.
Qed.

(** What [deconstruct] returns is what the parent's [deconstruct] returned
    with three keywords set from the field, [min_length], [alphabet] and
    [prefix]; every other keyword, [salt] and [allow_int_lookup] among
    them, is as the parent gave it or absent as the parent left it. *)
Theorem deconstruct_keywords (self : Field) (name path : string)
    (args : list PyValue) (kwargs : gmap string PyValue) :
  HashidFieldMixin_init.deconstruct super_deconstruct self
  = Ok (name, path, args, kwargs) ->
  kwargs !! "min_length" = Some (VInt (f_min_length self))
  /\ kwargs !! "alphabet" = Some (VStr (f_alphabet self))
  /\ kwargs !! "prefix" = Some (of_prefix (f_prefix self))
  /\ exists kwargs0,
       super_deconstruct (after HashidFieldMixin (mro (f_class self))) self
       = Ok (name, path, args, kwargs0)
       /\ forall k, k ∉ ["min_length"; "alphabet"; "prefix"] ->
                    kwargs !! k = kwargs0 !! k.
Proof.
  unfold HashidFieldMixin_init.deconstruct, py_super.
  destruct (isinstance_of _ _); [|discriminate]. cbn [mbind result_bind].
  destruct (super_deconstruct _ _) as [[[[n p] a] kw0]|e]; [|discriminate].
  intros [= <- <- <- <-]. split; [|split; [|split]].
  - rewrite !lookup_insert_ne by discriminate. apply lookup_insert_eq.
  - rewrite lookup_insert_ne by discriminate. apply lookup_insert_eq.
  - apply lookup_insert_eq.
  - exists kw0. split; [reflexivity|].
    intros k Hk. repeat (apply not_elem_of_cons in Hk as [? Hk]).
    by rewrite !lookup_insert_ne.
Qed.

(** A field rebuilt from what [deconstruct] returns gets the minimum
    length, the alphabet and the prefix of the field it came from and
    issues no warning, but its salt and its [allow_int_lookup] are the
    defaults of the settings: the parent being one that returns no
    positional arguments and knows nothing of [salt], [allow_int_lookup]
    and [allow_int]. *)
Theorem deconstruct_then_call (D : Defaults) (self : Field) (name path : string)
    (kwargs0 : gmap string PyValue) :
  isinstance_of (f_class self) HashidFieldMixin = true ->
  super_deconstruct (after HashidFieldMixin (mro (f_class self))) self
  = Ok (name, path, [], kwargs0) ->
  kwargs0 !! "salt" = None ->
  kwargs0 !! "allow_int_lookup" = None ->
  kwargs0 !! "allow_int" = None ->
  exists kwargs c,
    HashidFieldMixin_init.deconstruct super_deconstruct self
    = Ok (name, path, [], kwargs)
    /\ HashidFieldMixin_init.call D [] kwargs = Ok c
    /\ c_min_length c = VInt (f_min_length self)
    /\ c_alphabet c = VStr (f_alphabet self)
    /\ c_prefix c = of_prefix (f_prefix self)
    /\ c_salt c = HASHID_FIELD_SALT D
    /\ c_allow_int_lookup c = HASHID_FIELD_ALLOW_INT_LOOKUP D
    /\ c_warnings c = []
    /\ forall k, k ∉ HashidFieldMixin_init.parameters ->
                 c_super_kwargs c !! k = kwargs0 !! k.
Proof.
  intros Hi Hs Hsalt Hail Hai. eexists _, _.
  split; [by apply deconstruct_eq|].
  set (kw := <["prefix" := _]> _).
  assert (Hkw_ai : kw !! "allow_int" = None).
  { subst kw. by rewrite !lookup_insert_ne by discriminate. }
  assert (Hdel : foldr delete kw HashidFieldMixin_init.parameters !! "allow_int" = None).
  { rewrite lookup_foldr_delete_not_elem_of; [done|].
    unfold HashidFieldMixin_init.parameters.
    rewrite !not_elem_of_cons. repeat split; try discriminate. apply not_elem_of_nil. }
  unfold HashidFieldMixin_init.call, HashidFieldMixin_init.bind_parameter.
  cbn [lookup list_lookup mbind result_bind].
  unfold HashidFieldMixin_init.__init__. rewrite Hdel.
  split; [reflexivity|]. cbn [c_min_length c_alphabet c_prefix c_salt
    c_allow_int_lookup c_warnings c_super_kwargs].
  subst kw. split; [|split; [|split; [|split; [|split; [|split]]]]].
  - rewrite !lookup_insert_ne by discriminate. by rewrite lookup_insert_eq.
  - rewrite lookup_insert_ne by discriminate. by rewrite lookup_insert_eq.
  - by rewrite lookup_insert_eq.
  - rewrite !lookup_insert_ne by discriminate. by rewrite Hsalt.
  - rewrite !lookup_insert_ne by discriminate. by rewrite Hail.
  - reflexivity.
  - intros k Hk. rewrite lookup_foldr_delete_not_elem_of by done.
    unfold HashidFieldMixin_init.parameters in Hk.
    repeat (apply not_elem_of_cons in Hk as [? Hk]).
    by rewrite !lookup_insert_ne.
Qed.
End deconstruction.

(** ** The form field *)

Section form.
Context {R : Type}.
Variable super_formfield : list PyClass -> Field -> gmap string FormArg -> result R.

(** The dictionary [formfield] gives to the parent never names
    [AdminIntegerFieldWidget] as the widget: where the caller asked for it
    the widget is [AdminTextInputWidget], and any other widget, or none, is
    left as the caller had it.  The form class is the caller's if given
    and [CharField] otherwise, and every other keyword is the caller's. *)
Theorem formfield_defaults (kwargs : gmap string FormArg) :
  let d := HashidField_form.defaults kwargs in
  d !! "widget" <> Some AdminIntegerFieldWidget
  /\ (kwargs !! "widget" = Some AdminIntegerFieldWidget ->
      d !! "widget" = Some AdminTextInputWidget)
  /\ (kwargs !! "widget" <> Some AdminIntegerFieldWidget ->
      d !! "widget" = kwargs !! "widget")
  /\ d !! "form_class" = Some (default CharField (kwargs !! "form_class"))
  /\ forall k, k <> "widget" -> k <> "form_class" -> d !! k = kwargs !! k.
Proof.
  intros d. subst d. unfold HashidField_form.defaults.
  assert (Hw : (kwargs ∪ ({[ "form_class" := CharField ]} : gmap string FormArg))
               !! "widget" = kwargs !! "widget").
  { apply lookup_union_l. by rewrite lookup_singleton_ne. }
  assert (Hf : (kwargs ∪ ({[ "form_class" := CharField ]} : gmap string FormArg))
               !! "form_class" = Some (default CharField (kwargs !! "form_class"))).
  { rewrite lookup_union, lookup_singleton_eq. by destruct (kwargs !! "form_class"). }
  assert (Ho : forall k, k <> "form_class" ->
               (kwargs ∪ ({[ "form_class" := CharField ]} : gmap string FormArg))
               !! k = kwargs !! k).
  { intros k Hk. apply lookup_union_l. by rewrite lookup_singleton_ne. }
  rewrite Hw. case_bool_decide as Hc.
  - split; [by rewrite lookup_insert_eq|].
    split; [intros _; apply lookup_insert_eq|].
    split; [done|].
    split; [by rewrite lookup_insert_ne|].
    intros k Hk1 Hk2. rewrite lookup_insert_ne by done. by apply Ho.
  - split; [by rewrite Hw|]. split; [done|]. split; [by rewrite Hw|].
    split; [done|]. intros k _ Hk. by apply Ho.
Qed.

(** On a HashidField instance [formfield] is the parent's [formfield]
    called with that dictionary, so an exception of the parent is the
    exception of [formfield]; on an instance of a class that does not
    derive from HashidField it raises TypeError. *)
Theorem formfield_calls_parent (self : Field) (kwargs : gmap string FormArg) :
  (isinstance_of (f_class self) HashidField = true ->
   HashidField_form.formfield super_formfield self kwargs
   = super_formfield (after HashidField (mro (f_class self))) self
       (HashidField_form.defaults kwargs))
  /\ (isinstance_of (f_class self) HashidField = false ->
      exists msg,
        HashidField_form.formfield super_formfield self kwargs = Raise (TypeError msg)).
Proof.
  unfold HashidField_form.formfield, py_super. split; intros ->; [reflexivity|eauto].
Qed.
End form.

(** ** The further properties at work *)

Section runs_more.
#[local] Existing Instance Reference.hashid_module.
#[local] Existing Instance Reference.host.

Lemma set_changes_only_its_name_witness :
  let d := descriptor_of (Reference.field HashidField) in
  let inst := mkInstance {[ "other" := VInt 1 ]} in
  let inst' := HashidDescriptor.store d inst
                 (VHashid (mkHashid 5 (HashidDescriptor.config d))) in
  (forall k, k <> d_name d -> inst_dict inst' !! k = inst_dict inst !! k)
  /\ (inst_dict inst' !! d_name d = Some (VInt 5)
      \/ exists h, Hashid_new (VInt 5) (HashidDescriptor.config d) = Ok h
                   /\ inst_dict inst' !! d_name d = Some (VHashid h)).
Proof.
  intros d inst inst'.
  apply (set_changes_only_its_name d inst inst' (VInt 5)). reflexivity.
Defined.

Lemma get_after_set_witness :
  let d := descriptor_of (Reference.field HashidField) in
  let inst' := HashidDescriptor.store d (mkInstance ∅) VNone in
  exists w,
    inst_dict inst' !! d_name d = Some w
    /\ HashidDescriptor.__get__ d (Some inst')
       = (h ← Hashid_new w (HashidDescriptor.config d); Ok (VHashid h)).
Proof.
  intros d inst'.
  apply (get_after_set d (mkInstance ∅) inst' VNone). reflexivity.
Defined.

Lemma get_after_set_of_rejected_value_witness :
  let d := descriptor_of (Reference.field HashidField) in
  let e := ValueError "id must be a positive integer or a valid Hashid string" VNone in
  exists inst',
    HashidDescriptor.__set__ d (mkInstance ∅) (VStr "!") = Ok inst'
    /\ HashidDescriptor.__get__ d (Some inst') = Raise e.
Proof.
  intros d e.
  apply (get_after_set_of_rejected_value d (mkInstance ∅) (VStr "!") e); reflexivity.
Defined.

Lemma to_python_idempotent_witness :
  let self := Reference.field HashidField in
  let w := VHashid (mkHashid 5 (HashidFieldMixin.config self)) in
  HashidFieldMixin.to_python self w = Ok w.
Proof.
  intros self w. apply (to_python_idempotent self (VInt 5) w). reflexivity.
Defined.

Lemma get_prep_value_of_to_python_witness :
  let self := Reference.field HashidField in
  HashidFieldMixin.get_prep_value self (VStr "cb")
  = HashidFieldMixin.get_prep_value self
      (VHashid (mkHashid 125 (HashidFieldMixin.config self))).
Proof.
  intros self.
  apply (get_prep_value_of_to_python self (VStr "cb")
           (VHashid (mkHashid 125 (HashidFieldMixin.config self)))).
  - discriminate.
  - reflexivity.
Defined.

Lemma conversion_passes_other_exceptions_witness :
  let self := Reference.field HashidField in
  let e := TypeError "id must not be a bool" in
  @HashidFieldMixin.to_python Reference.hashid_module_typed Reference.host
    self (VBool true) = Raise e
  /\ (VBool true <> VStr "" ->
      @HashidFieldMixin.get_prep_value Reference.hashid_module_typed Reference.host
        self (VBool true) = Raise e).
Proof.
  intros self e.
  apply (@conversion_passes_other_exceptions Reference.hashid_module_typed
           Reference.host self (VBool true) e); reflexivity.
Defined.

Lemma set_stores_to_python_witness :
  let self := Reference.field HashidField in
  let w := VHashid (mkHashid 5 (HashidFieldMixin.config self)) in
  HashidDescriptor.__set__ (descriptor_of self) (mkInstance ∅) (VInt 5)
  = Ok (HashidDescriptor.store (descriptor_of self) (mkInstance ∅) w).
Proof.
  intros self w. apply (set_stores_to_python self (mkInstance ∅) (VInt 5) w).
  reflexivity.
Defined.

Lemma check_appends_to_parent_witness :
  let self :=
    mkField HashidField None 0 "abc" None false ∅ None "" None None in
  HashidFieldMixin.check self ∅ = Ok [E001; W001].
Proof.
  intros self.
  destruct (check_appends_to_parent self ∅) as [_ Hok]; [reflexivity|].
  destruct (Hok []) as (_ & _ & Hboth); [reflexivity|].
  apply Hboth.
  - by vm_compute.
  - by left.
Defined.

Lemma HashidField_contribute_to_class_frame_witness :
  let self := Reference.field HashidField in
  let cls := mkModelClass "Record" {[ "n" := descriptor_of self ]} (Some (mkPk "id")) in
  exists self' cls'',
    HashidField.contribute_to_class self cls "ref" ∅ = Ok (self', cls'')
    /\ cls_attrs cls'' !! "n" = Some (descriptor_of self).
Proof.
  intros self cls.
  edestruct (proj2 (HashidField_contribute_to_class_frame self cls "ref" ∅ eq_refl))
    as (cls'' & Hc & _ & _ & Hframe).
  { reflexivity. }
  eexists _, cls''. split; [exact Hc|].
  rewrite Hframe; [reflexivity|discriminate].
Defined.

Lemma contribute_to_class_then_set_witness :
  let self := Reference.field PrimaryKeyHashidProxyField in
  exists self' cls' d,
    PrimaryKeyHashidProxyField.contribute_to_class self Reference.model "hashid" ∅
    = Ok (self', cls')
    /\ cls_attrs cls' !! "hashid" = Some d
    /\ exists inst',
         HashidDescriptor.__set__ d (mkInstance ∅) (VInt 5) = Ok inst'
         /\ inst_dict inst' !! "hashid"
            = Some (VHashid (mkHashid 5 (HashidFieldMixin.config self))).
Proof.
  intros self.
  eassert (Hc : PrimaryKeyHashidProxyField.contribute_to_class
                  self Reference.model "hashid" ∅ = Ok (_, _)) by reflexivity.
  destruct (contribute_to_class_then_set _ _ _ _ _ _ (or_intror Hc))
    as (d & Hd & _ & Hset).
  eexists _, _, d. split; [exact Hc|]. split; [exact Hd|].
  apply (Hset (mkInstance ∅) (VInt 5)). reflexivity.
Defined.

Lemma call_forwards_witness :
  let D := mkDefaults (VStr "") (VInt 0) (VBool false) (VStr Reference.alphabet62) in
  let kwargs : gmap string PyValue :=
    {[ "allow_int" := VBool true; "allow_int_lookup" := VBool false;
       "null" := VBool true ]} in
  exists c,
    HashidFieldMixin_init.call D [VStr "salt"] kwargs = Ok c
    /\ c_allow_int_lookup c = VBool true
    /\ c_super_kwargs c !! "allow_int_lookup" = None
    /\ c_super_kwargs c !! "null" = Some (VBool true).
Proof.
  intros D kwargs.
  edestruct (call_forwards D [VStr "salt"] kwargs) as (_ & Hin & Hout & Hai).
  { reflexivity. }
  eexists. split; [reflexivity|]. split; [|split].
  - by apply Hai.
  - apply Hin. apply (bool_decide_unpack _). by vm_compute.
  - rewrite Hout; [reflexivity|]. apply (bool_decide_unpack _). by vm_compute.
Defined.

Lemma deconstruct_keywords_witness :
  let self := Reference.field HashidField in
  let kwargs : gmap string PyValue :=
    <["prefix" := VNone]>
      (<["alphabet" := VStr Reference.alphabet62]>
         (<["min_length" := VInt 7]> {[ "null" := VBool true ]})) in
  kwargs !! "min_length" = Some (VInt 7)
  /\ kwargs !! "alphabet" = Some (VStr Reference.alphabet62)
  /\ kwargs !! "prefix" = Some VNone
  /\ exists kwargs0,
       Reference.deconstruct (after HashidFieldMixin (mro HashidField)) self
       = Ok ("ref", "hashid_field.field.HashidField", [], kwargs0)
       /\ forall k, k ∉ ["min_length"; "alphabet"; "prefix"] ->
                    kwargs !! k = kwargs0 !! k.
Proof.
  intros self kwargs.
  apply (deconstruct_keywords Reference.deconstruct self
           "ref" "hashid_field.field.HashidField" [] kwargs).
  reflexivity.
Defined.

Lemma deconstruct_then_call_witness :
  let self := Reference.field HashidField in
  let D := mkDefaults (VStr "") (VInt 0) (VBool false) (VStr Reference.alphabet62) in
  exists kwargs c,
    HashidFieldMixin_init.deconstruct Reference.deconstruct self
    = Ok ("ref", "hashid_field.field.HashidField", [], kwargs)
    /\ HashidFieldMixin_init.call D [] kwargs = Ok c
    /\ c_min_length c = VInt 7
    /\ c_salt c = VStr "".
Proof.
  intros self D.
  edestruct (deconstruct_then_call Reference.deconstruct D self
               "ref" "hashid_field.field.HashidField" {[ "null" := VBool true ]})
    as (kwargs & c & Hd & Hc & Hml & _ & _ & Hsalt & _); try reflexivity.
  exists kwargs, c. by repeat split.
Defined.

Lemma conversion_exception_kinds_witness :
  let custom :=
    mkField HashidField (Some "a salt") 7 Reference.alphabet62 None false
      {[ "invalid" := "%(nope)s" ]} None "" None None in
  HashidFieldMixin.get_prep_value (Reference.field HashidField) (VStr "!")
  = Raise (ValueError
             "'!' value must be a positive integer or a valid Hashids string." VNone)
  /\ HashidFieldMixin.get_prep_value custom (VStr "!") = Raise (OtherError "KeyError").
Proof.
  intros custom.
  assert (Hne : VStr "!" <> VStr "") by discriminate.
  assert (Hnew1 :
    Hashid_new (VStr "!") (HashidFieldMixin.config (Reference.field HashidField))
    = Raise (ValueError "id must be a positive integer or a valid Hashid string" VNone))
    by reflexivity.
  assert (Hnew2 :
    Hashid_new (VStr "!") (HashidFieldMixin.config custom)
    = Raise (ValueError "id must be a positive integer or a valid Hashid string" VNone))
    by reflexivity.
  split.
  - destruct (proj2 (conversion_exception_kinds (Reference.field HashidField) (VStr "!"))
                _ _ eq_refl eq_refl Hne Hnew1)
      as (m & Hm & Hok & _).
    injection Hm as <-. apply Hok. reflexivity.
  - destruct (proj2 (conversion_exception_kinds custom (VStr "!"))
                _ _ eq_refl eq_refl Hne Hnew2)
      as (m & Hm & _ & Hraise).
    injection Hm as <-. apply Hraise. reflexivity.
Defined.

(** C10, the claim as given fails on an integer loaded from the database:
    [from_db_value] leaves it unwrapped, and assigning it to the attribute
    already stores a Hashid, before any read of the attribute. *)
Lemma set_wraps_database_value :
  let self := Reference.field HashidField in
  let d := descriptor_of self in
  let raw := HashidFieldMixin.from_db_value self (VInt 42) tt tt tt in
  raw = VInt 42
  /\ isinstance_Hashid raw = false
  /\ exists inst',
       HashidDescriptor.__set__ d (mkInstance ∅) raw = Ok inst'
       /\ inst_dict inst' !! d_name d
          = Some (VHashid (mkHashid 42 (HashidDescriptor.config d))).
Proof.
  split; [reflexivity|]. split; [reflexivity|].
  eexists. split; [reflexivity|]. by vm_compute.
Qed.

Lemma from_db_value_unwrapped_descriptor_wraps_witness :
  let self := Reference.field HashidField in
  let d := descriptor_of self in
  let h := mkHashid 42 (HashidDescriptor.config d) in
  HashidFieldMixin.from_db_value self (VInt 42) tt tt tt = VInt 42
  /\ HashidDescriptor.__set__ d (mkInstance ∅)
       (HashidFieldMixin.from_db_value self (VInt 42) tt tt tt)
     = Ok (HashidDescriptor.store d (mkInstance ∅) (VHashid h))
  /\ HashidDescriptor.__get__ d
       (Some (mkInstance (<[d_name d := VInt 42]> ∅)))
     = Ok (VHashid h).
Proof.
  intros self d h.
  destruct (from_db_value_unwrapped_descriptor_wraps self (VInt 42) tt tt tt)
    as (Hid & _ & Hset & Hget).
  split; [exact Hid|]. split.
  - apply Hset; reflexivity.
  - apply (Hget d (mkInstance ∅)).
Defined.
End runs_more.
